(** * gunicorn/wsgi.py: request context and response writer

    A shallow embedding of [gunicorn/wsgi.py] (classes [Response],
    [KeepAliveResponse], [Request] and [KeepAliveRequest]) and the
    properties of it that the specification states.

    Python byte strings are [string]; objects whose type the code tests
    with [isinstance] are values of [pyobj]; a method is a function from
    the state of the objects it touches to an outcome (a returned value
    or a raised exception) and the state it leaves behind, so that what
    was written to the socket before an exception stays observable. *)

From Stdlib Require Import ZArith Ascii DecimalString HexadecimalString.
From stdpp Require Import base list strings gmap.

Open Scope Z_scope.

(** ** Python string primitives *)

Module PyStr.

Definition is_upper (c : ascii) : bool :=
  let n := nat_of_ascii c in (65 <=? n)%nat && (n <=? 90)%nat.

Definition is_lower (c : ascii) : bool :=
  let n := nat_of_ascii c in (97 <=? n)%nat && (n <=? 122)%nat.

Definition lower_char (c : ascii) : ascii :=
  if is_upper c then ascii_of_nat (nat_of_ascii c + 32) else c.

Definition upper_char (c : ascii) : ascii :=
  if is_lower c then ascii_of_nat (nat_of_ascii c - 32) else c.

Fixpoint map (f : ascii -> ascii) (s : string) : string :=
  match s with
  | EmptyString => EmptyString
  | String c s' => String (f c) (map f s')
  end.

(** [s.lower()] and [s.upper()] on a byte string. *)
Definition lower : string -> string := map lower_char.
Definition upper : string -> string := map upper_char.

Definition is_empty (s : string) : bool :=
  match s with EmptyString => true | _ => false end.

Fixpoint lstrip (s : string) : string :=
  match s with
  | String c s' => if Ascii.is_space c then lstrip s' else s
  | EmptyString => EmptyString
  end.

Fixpoint rstrip (s : string) : string :=
  match s with
  | String c s' =>
      let r := rstrip s' in
      if Ascii.is_space c && is_empty r then EmptyString else String c r
  | EmptyString => EmptyString
  end.

(** [s.strip()]: leading and trailing whitespace removed. *)
Definition strip (s : string) : string := rstrip (lstrip s).

(** [sep in s] for a one-character [sep]. *)
Fixpoint contains (sep : ascii) (s : string) : bool :=
  match s with
  | EmptyString => false
  | String c s' => Ascii.eqb c sep || contains sep s'
  end.

(** [s.split(sep)] for a one-character [sep]: never the empty list. *)
Fixpoint split (sep : ascii) (s : string) : list string :=
  match s with
  | EmptyString => [EmptyString]
  | String c s' =>
      if Ascii.eqb c sep then EmptyString :: split sep s'
      else match split sep s' with
           | tok :: toks => String c tok :: toks
           | [] => [String c EmptyString]
           end
  end.

(** [s.replace(a, b)] for one-character [a] and [b]. *)
Definition replace (a b : ascii) : string -> string :=
  map (fun c => if Ascii.eqb c a then b else c).

Fixpoint drop (n : nat) (s : string) : string :=
  match n, s with
  | O, _ => s
  | S n', String _ s' => drop n' s'
  | S _, EmptyString => EmptyString
  end.

(** [s.split(sep, 1)[-1]]: what follows the first occurrence of [sep],
    the whole of [s] when [sep] does not occur. *)
Fixpoint after_first (sep s : string) : option string :=
  if String.prefix sep s then Some (drop (String.length sep) s)
  else match s with
       | EmptyString => None
       | String _ s' => after_first sep s'
       end.

Definition split1_last (sep s : string) : string :=
  default s (after_first sep s).

Fixpoint join (l : list string) : string :=
  match l with
  | [] => EmptyString
  | s :: l' => s +:+ join l'
  end.

(** ["%d" % n] and [str(n)] for an integer. *)
Definition of_Z (z : Z) : string :=
  DecimalString.NilZero.string_of_int (Z.to_int z).

(** ["%X" % n]. *)
Definition hex_of_nat (n : nat) : string :=
  upper (HexadecimalString.NilZero.string_of_uint (N.to_hex_uint (N.of_nat n))).

End PyStr.

Definition CRLF : string := String "013" (String "010" EmptyString).

(** ** Python values and exceptions *)

(** The objects a handler may pass where the code expects a string: a
    byte string, an integer, [None], or a tuple, which carries its items
    and what [str()] gives for it. *)
#[warnings="-register-all"]
Inductive pyobj :=
| PyStr (s : string)
| PyInt (n : Z)
| PyNone
| PyTuple (items : list pyobj) (shown : string).

(** [isinstance(o, basestring)] *)
Definition is_basestring (o : pyobj) : bool :=
  match o with PyStr _ => true | _ => false end.

(** The three assertion messages of the module; the offending object
    stands for its [%r] rendering. *)
Inductive assertion :=
| NotAString (name : pyobj)          (* "%r is not a string" % name *)
| NotAStringDot (arg : pyobj)        (* "%r is not a string." % arg *)
| HeadersAlreadySet.                 (* "Response headers already set!" *)

(** What [start_response] receives as [exc_info]: the triple is opaque
    to the module, which only re-raises it. *)
Record exc_info := ExcInfo { exc_type : string; exc_value : string }.

Inductive exn :=
| AssertionError (a : assertion)
| AttributeError (obj : pyobj) (attr : string)
| TypeError (what : string)
| SocketError (errno : Z)            (* socket.error, e[0] = errno *)
| IndexError
| StopIteration
| Reraised (e : exc_info).           (* raise exc_info[0], exc_info[1], exc_info[2] *)

Definition ECONNRESET : Z := 104.

Inductive outcome (A : Type) :=
| Return (a : A)
| Raise (e : exn).
Arguments Return {A} a.
Arguments Raise {A} e.

(** [str(o)] *)
Definition py_str (o : pyobj) : string :=
  match o with
  | PyStr s => s
  | PyInt n => PyStr.of_Z n
  | PyNone => "None"
  | PyTuple _ shown => shown
  end.

(** [o.lower()]: a method of strings only. *)
Definition py_lower (o : pyobj) : outcome string :=
  match o with
  | PyStr s => Return (PyStr.lower s)
  | _ => Raise (AttributeError o "lower")
  end.

(** [assert False, fmt % o], for a format [fmt] with the one conversion
    [%r]: the message is built first, and [%] takes a tuple for its list
    of arguments, so that only a tuple of one item formats; a tuple of
    another length raises [TypeError] in place of the assertion. *)
Definition assert_failure (message : pyobj -> assertion) (o : pyobj) : exn :=
  match o with
  | PyTuple [item] _ => AssertionError (message item)
  | PyTuple [] _ => TypeError "not enough arguments for format string"
  | PyTuple _ _ =>
      TypeError "not all arguments converted during string formatting"
  | _ => AssertionError (message o)
  end.

(** ** Methods: state and exceptions *)

Definition M (S A : Type) : Type := S -> outcome A * S.

Definition ret {S A} (a : A) : M S A := fun s => (Return a, s).
Definition raise {S A} (e : exn) : M S A := fun s => (Raise e, s).
Definition bind {S A B} (m : M S A) (k : A -> M S B) : M S B :=
  fun s => match m s with
           | (Return a, s') => k a s'
           | (Raise e, s') => (Raise e, s')
           end.
Definition get {S} : M S S := fun s => (Return s, s).
Definition put {S} (s : S) : M S unit := fun _ => (Return tt, s).
Definition lift {S A} (o : outcome A) : M S A := fun s => (o, s).

(** [try: m except e: h e] *)
Definition try_except {S A} (m : M S A) (h : exn -> M S A) : M S A :=
  fun s => match m s with
           | (Return a, s') => (Return a, s')
           | (Raise e, s') => h e s'
           end.

Declare Scope py_scope.
Delimit Scope py_scope with py.
Notation "'let!' x ':=' m 'in' k" := (bind m (fun x => k))
  (at level 10, x name, m at level 100, k at level 200) : py_scope.
Notation "'run!' m 'in' k" := (bind m (fun _ => k))
  (at level 10, m at level 100, k at level 200) : py_scope.

(** A method of a component [T] of the state, run on the whole state. *)
Definition zoom {S T A} (prj : S -> T) (upd : T -> S -> S) (m : M T A) : M S A :=
  fun s => let '(o, t) := m (prj s) in (o, upd t s).

(** ** The socket *)

(** The transport of one connection: what has been sent on it, one
    entry per call, and whether it is broken, in which case sending
    raises [socket.error] with that errno and sends nothing. *)
Record Socket := { wire : list string; fault : option Z }.

(** [sock.send(data)] and [sock.sendall(data)] *)
Definition send (data : string) : M Socket unit :=
  fun sock => match fault sock with
              | Some errno => (Raise (SocketError errno), sock)
              | None => (Return tt, {| wire := wire sock ++ [data]; fault := None |})
              end.

(** ** gunicorn.util *)

Module util.

Definition hop_headers : list string :=
  ["connection"; "keep-alive"; "proxy-authenticate"; "proxy-authorization";
   "te"; "trailers"; "transfer-encoding"; "upgrade"].

(** Modelled from the spec: [gunicorn.util.is_hoppish] is imported by
    the module and defined elsewhere; the spec gives it as a
    case-insensitive test against the fixed set Connection,
    Keep-Alive, Proxy-Authenticate, Proxy-Authorization, TE, Trailers,
    Transfer-Encoding, Upgrade. *)
Definition is_hoppish (name : string) : bool :=
  bool_decide (PyStr.lower name ∈ hop_headers).

(** Modelled from the spec: [gunicorn.util.write_chunk], one
    chunked-encoding frame, the length in hexadecimal, CRLF, the data,
    CRLF, sent in one call. *)
Definition write_chunk (data : string) : M Socket unit :=
  send (PyStr.hex_of_nat (String.length data) +:+ CRLF +:+ data +:+ CRLF).

(** Modelled from the spec: [gunicorn.util.write], the raw bytes when
    not chunked, one chunked-encoding frame when chunked. *)
Definition write (data : string) (chunked : bool) : M Socket unit :=
  if chunked then write_chunk data else send data.

End util.

(** ** Data *)

(** What the external parser hands over for one request; [should_close]
    is the record's own closing signal. *)
Module ParsedRequest.
Record t := {
  method : string;
  path : string;
  query : string;
  version : string;
  headers : list (string * string);
  body : string;
  should_close : bool
}.
End ParsedRequest.

(** [Request.RESPONSE_CLASS]: which [default_headers] a response runs. *)
Inductive response_class := BaseResponse | KeepAliveResponseClass.

(** The fields of a [Response] object other than [req], which is the
    session that owns it. *)
Module ResponseState.
Record t := {
  cls : response_class;
  version : string;
  status : string;
  chunked : bool;
  headers : list (string * string);
  headers_sent : bool
}.

Definition set_headers_sent (b : bool) (r : t) : t :=
  {| cls := cls r; version := version r; status := status r;
     chunked := chunked r; headers := headers r; headers_sent := b |}.
End ResponseState.

(** A client or server address: a string, an [(host, port)] pair as
    [accept] gives for an internet socket, or [None]. *)
Inductive address :=
| AddrStr (s : string)
| AddrPair (host : string) (port : Z)
| AddrNone.

(** The fields of a [Request] object that the module reads or writes.
    [parser] is what the calls of [parser.next()] still to come will do,
    in order; [os_SCRIPT_NAME] is [os.environ.get("SCRIPT_NAME", "")]. *)
Module Session.
Record t := {
  RESPONSE_CLASS : response_class;
  SERVER_VERSION : string;
  os_SCRIPT_NAME : string;
  debug : bool;
  socket : Socket;
  client_address : address;
  server_address : address;
  parser : list (outcome ParsedRequest.t);
  response : option ResponseState.t;
  req : option ParsedRequest.t
}.

Definition set_socket (sock : Socket) (s : t) : t :=
  {| RESPONSE_CLASS := RESPONSE_CLASS s; SERVER_VERSION := SERVER_VERSION s;
     os_SCRIPT_NAME := os_SCRIPT_NAME s; debug := debug s; socket := sock;
     client_address := client_address s; server_address := server_address s;
     parser := parser s; response := response s; req := req s |}.

Definition set_parser (p : list (outcome ParsedRequest.t)) (s : t) : t :=
  {| RESPONSE_CLASS := RESPONSE_CLASS s; SERVER_VERSION := SERVER_VERSION s;
     os_SCRIPT_NAME := os_SCRIPT_NAME s; debug := debug s; socket := socket s;
     client_address := client_address s; server_address := server_address s;
     parser := p; response := response s; req := req s |}.

Definition set_response (r : option ResponseState.t) (s : t) : t :=
  {| RESPONSE_CLASS := RESPONSE_CLASS s; SERVER_VERSION := SERVER_VERSION s;
     os_SCRIPT_NAME := os_SCRIPT_NAME s; debug := debug s; socket := socket s;
     client_address := client_address s; server_address := server_address s;
     parser := parser s; response := r; req := req s |}.

Definition set_req (q : option ParsedRequest.t) (s : t) : t :=
  {| RESPONSE_CLASS := RESPONSE_CLASS s; SERVER_VERSION := SERVER_VERSION s;
     os_SCRIPT_NAME := os_SCRIPT_NAME s; debug := debug s; socket := socket s;
     client_address := client_address s; server_address := server_address s;
     parser := parser s; response := response s; req := q |}.

(** [self.socket] as seen from a method of the session. *)
Definition on_socket {A} : M Socket A -> M t A := zoom socket set_socket.
End Session.

Open Scope py_scope.

(** ** class KeepAliveResponse(Response) *)

(** A method of a response runs on the response itself and on the
    session it was created by, [self.req]. *)
Definition response_self : Type := ResponseState.t * Session.t.

Module KeepAliveResponse.
Import ResponseState.

(** [date] is what [http_date()] returns when the method runs. *)
Definition default_headers (date : string) : M response_self (list string) :=
  let! self := get in
  match Session.req (snd self) with
  | None => raise (AttributeError PyNone "should_close")
  | Some preq =>
      let connection :=
        if ParsedRequest.should_close preq then "close" else "keep-alive" in
      ret ["HTTP/1.1 " +:+ status (fst self) +:+ CRLF;
           "Server: " +:+ version (fst self) +:+ CRLF;
           "Date: " +:+ date +:+ CRLF;
           "Connection: " +:+ connection +:+ CRLF]
  end.

End KeepAliveResponse.

(** ** class Response *)

Module Response.
Import ResponseState.

(** One turn of the loop of [__init__] on a header whose name is the
    string [name]: the chunked flag after it and the pair appended to
    [self.headers], [None] where the loop runs [continue]. *)
Definition init_header (name : string) (value : pyobj) (chunked : bool)
    : outcome (bool * option (string * string)) :=
  let appended := Some (PyStr.strip name, PyStr.strip (py_str value)) in
  if util.is_hoppish name then
    let lname := PyStr.strip (PyStr.lower name) in
    if String.eqb lname "transfer-encoding" then
      match py_lower value with
      | Raise e => Raise e
      | Return lvalue =>
          if String.eqb (PyStr.strip lvalue) "chunked"
          then Return (true, appended)
          else Return (chunked, appended)
      end
    else if String.eqb lname "connection" then
      match py_lower value with
      | Raise e => Raise e
      | Return lvalue =>
          if negb (String.eqb (PyStr.strip lvalue) "upgrade")
          then Return (chunked, None)
          else Return (chunked, appended)
      end
    else Return (chunked, None)
  else Return (chunked, appended).

(** [for name, value in headers: ...] *)
Fixpoint init_headers (hs : list (pyobj * pyobj)) (chunked : bool)
    (acc : list (string * string)) : outcome (bool * list (string * string)) :=
  match hs with
  | [] => Return (chunked, acc)
  | (PyStr name, value) :: rest =>
      match init_header name value chunked with
      | Raise e => Raise e
      | Return (chunked', Some h) => init_headers rest chunked' (acc ++ [h])
      | Return (chunked', None) => init_headers rest chunked' acc
      end
  | (name, _) :: _ => Raise (assert_failure NotAString name)
  end.

(** [Response(req, status, headers)], and [KeepAliveResponse(...)] for
    the other class, which inherits the constructor. *)
Definition init (c : response_class) (req : Session.t) (status : string)
    (hs : list (pyobj * pyobj)) : outcome ResponseState.t :=
  match init_headers hs false [] with
  | Raise e => Raise e
  | Return (chunked, headers) =>
      Return {| cls := c; version := Session.SERVER_VERSION req;
                status := status; chunked := chunked; headers := headers;
                headers_sent := false |}
  end.

Definition default_headers (date : string) (self : ResponseState.t) : list string :=
  ["HTTP/1.1 " +:+ status self +:+ CRLF;
   "Server: " +:+ version self +:+ CRLF;
   "Date: " +:+ date +:+ CRLF;
   "Connection: close" +:+ CRLF].

(** [self.default_headers()]: the method of the object's class. *)
Definition self_default_headers (date : string) : M response_self (list string) :=
  let! self := get in
  match cls (fst self) with
  | BaseResponse => ret (default_headers date (fst self))
  | KeepAliveResponseClass => KeepAliveResponse.default_headers date
  end.

Definition on_socket {A} (m : M Socket A) : M response_self A :=
  zoom snd (fun rq s => (fst s, rq)) (Session.on_socket m).

Definition header_line (h : string * string) : string :=
  fst h +:+ ": " +:+ snd h +:+ CRLF.

(** The one string [send_headers] writes. *)
Definition header_block (tosend : list string) (self : ResponseState.t) : string :=
  PyStr.join (tosend ++ map header_line (headers self)) +:+ CRLF.

Definition send_headers (date : string) : M response_self unit :=
  let! self := get in
  if headers_sent (fst self) then ret tt
  else
    let! tosend := self_default_headers date in
    run! on_socket (util.write (header_block tosend (fst self)) false) in
    let! self := get in
    put (set_headers_sent true (fst self), snd self).

Definition write (date : string) (arg : pyobj) : M response_self unit :=
  run! send_headers date in
  match arg with
  | PyStr data =>
      let! self := get in
      on_socket (util.write data (chunked (fst self)))
  | _ => raise (assert_failure NotAStringDot arg)
  end.

Definition close (date : string) : M response_self unit :=
  let! self := get in
  run! (if negb (headers_sent (fst self)) then send_headers date else ret tt) in
  let! self := get in
  if chunked (fst self) then on_socket (util.write_chunk "") else ret tt.

End Response.

(** ** urllib.unquote *)

Definition hex_digit (c : ascii) : option nat :=
  let n := nat_of_ascii c in
  if (48 <=? n)%nat && (n <=? 57)%nat then Some (n - 48)%nat
  else if (65 <=? n)%nat && (n <=? 70)%nat then Some (n - 55)%nat
  else if (97 <=? n)%nat && (n <=? 102)%nat then Some (n - 87)%nat
  else None.

(** The standard library's [unquote]: [%XY] with two hexadecimal digits
    becomes the byte they name, any other [%] stays. *)
Fixpoint unquote (s : string) : string :=
  match s with
  | EmptyString => EmptyString
  | String c s1 =>
      if Ascii.eqb c "%" then
        match s1 with
        | String a (String b s3) =>
            match hex_digit a, hex_digit b with
            | Some x, Some y => String (ascii_of_nat (16 * x + y)) (unquote s3)
            | _, _ => String c (unquote s1)
            end
        | _ => String c (unquote s1)
        end
      else String c (unquote s1)
  end.

(** ** class Request *)

(** What the request context maps a key to. *)
Inductive value :=
| VObj (o : pyobj)
| VBool (b : bool)
| VVersion (major minor : Z)
| VInput (body : string)
| VStderr.

Abbreviation VStr s := (VObj (PyStr s)).

Module Request.
Import Session.

(** The local variables the loop over [req.headers] assigns. *)
Record locals := {
  forward_address : address;
  host : option string;
  script_name : string;
  content_type : string;
  content_length : string
}.

(** [self.parser.next()]: the next of the outcomes the session holds
    for it.
    Modelled from the spec: [simplehttp.RequestParser] is not under
    [src/], and the spec has it signal the end of the stream by a
    sentinel rather than an error; once the outcomes are used up the
    call returns that sentinel, [None]. *)
Definition parser_next : M Session.t (option ParsedRequest.t) :=
  fun self => match parser self with
              | [] => (Return None, self)
              | Return req :: rest => (Return (Some req), set_parser rest self)
              | Raise e :: rest => (Raise e, set_parser rest self)
              end.

Definition scan_header (l : locals) (h : string * string) : M Session.t locals :=
  let hdr_value := snd h in
  let name := PyStr.lower (fst h) in
  if String.eqb name "expect" then
    run! (if String.eqb (PyStr.lower hdr_value) "100-continue"
          then on_socket (send ("HTTP/1.1 100 Continue" +:+ CRLF +:+ CRLF))
          else ret tt) in
    ret l
  else if String.eqb name "x-forwarded-for" then
    ret {| forward_address := AddrStr hdr_value; host := host l;
           script_name := script_name l; content_type := content_type l;
           content_length := content_length l |}
  else if String.eqb name "host" then
    ret {| forward_address := forward_address l; host := Some hdr_value;
           script_name := script_name l; content_type := content_type l;
           content_length := content_length l |}
  else if String.eqb name "script_name" then
    ret {| forward_address := forward_address l; host := host l;
           script_name := hdr_value; content_type := content_type l;
           content_length := content_length l |}
  else if String.eqb name "content-type" then
    ret {| forward_address := forward_address l; host := host l;
           script_name := script_name l; content_type := hdr_value;
           content_length := content_length l |}
  else if String.eqb name "content-length" then
    ret {| forward_address := forward_address l; host := host l;
           script_name := script_name l; content_type := content_type l;
           content_length := hdr_value |}
  else ret l.

(** [for hdr_name, hdr_value in req.headers: ...] *)
Fixpoint scan_headers (hs : list (string * string)) (l : locals) : M Session.t locals :=
  match hs with
  | [] => ret l
  | h :: rest => let! l' := scan_header l h in scan_headers rest l'
  end.

(** [a or "127.0.0.1"] *)
Definition or_localhost (a : address) : address :=
  match a with
  | AddrNone => AddrStr "127.0.0.1"
  | AddrStr s => if PyStr.is_empty s then AddrStr "127.0.0.1" else a
  | AddrPair _ _ => a
  end.

(** [s.split(":")], with [''] appended when there is one token. *)
Definition split_colon (s : string) : list pyobj :=
  let parts := PyStr <$> PyStr.split ":" s in
  if (length parts =? 1)%nat then parts ++ [PyStr ""] else parts.

(** [remote_addr] after lines 177-186. The name [forward_adress] is
    the source's: it is assigned and never read. *)
Definition remote_addr (forward_address : address) : option (list pyobj) :=
  match forward_address with
  | AddrStr s =>
      let forward_adress :=
        if PyStr.contains "," s
        then PyStr.strip (List.last (PyStr.split "," s) EmptyString)
        else EmptyString in
      Some (split_colon s)
  | AddrPair h p => Some [PyStr h; PyInt p]
  | AddrNone => None
  end.

(** [server_address] after lines 188-191. *)
Definition server_addr (server_address : address) : option (list pyobj) :=
  match server_address with
  | AddrStr s => Some (split_colon s)
  | AddrPair h p => Some [PyStr h; PyInt p]
  | AddrNone => None
  end.

(** [seq[i]] *)
Definition getitem (seq : option (list pyobj)) (i : nat) : outcome pyobj :=
  match seq with
  | None => Raise (TypeError "'NoneType' object is unsubscriptable")
  | Some l => match l !! i with
              | Some o => Return o
              | None => Raise IndexError
              end
  end.

(** ['HTTP_' + key.upper().replace('-', '_')] *)
Definition http_key (key : string) : string :=
  "HTTP_" +:+ PyStr.replace "-" "_" (PyStr.upper key).

(** [for key, value in req.headers: ...] on the finished mapping. *)
Fixpoint add_headers (hs : list (string * string)) (environ : gmap string value)
    : gmap string value :=
  match hs with
  | [] => environ
  | (key, v) :: rest =>
      let key := http_key key in
      if bool_decide (key ∈ ["HTTP_CONTENT_TYPE"; "HTTP_CONTENT_LENGTH"])
      then add_headers rest environ
      else add_headers rest (<[key := VStr v]> environ)
  end.

Definition read : M Session.t (gmap string value) :=
  let! next := parser_next in
  let! self := get in
  run! put (set_req next self) in
  match next with
  | None => raise (AttributeError PyNone "headers")
  | Some req =>
  let client_address := or_localhost (client_address self) in
  let! l := scan_headers (ParsedRequest.headers req)
              {| forward_address := client_address; host := None;
                 script_name := os_SCRIPT_NAME self;
                 content_type := ""; content_length := "" |} in
  let wsgi_multiprocess := negb (debug self) in
  let remote_addr := remote_addr (forward_address l) in
  let server_address := server_addr (server_address self) in
  let path_info :=
    if PyStr.is_empty (script_name l) then ParsedRequest.path req
    else PyStr.split1_last (script_name l) (ParsedRequest.path req) in
  let! remote_addr_0 := lift (getitem remote_addr 0) in
  let! remote_addr_1 := lift (getitem remote_addr 1) in
  let! server_address_0 := lift (getitem server_address 0) in
  let! server_address_1 := lift (getitem server_address 1) in
  let environ : gmap string value :=
    <[ "SERVER_PROTOCOL" := VStr (ParsedRequest.version req) ]> (
    <[ "SERVER_PORT" := VStr (py_str server_address_1) ]> (
    <[ "SERVER_NAME" := VObj server_address_0 ]> (
    <[ "REMOTE_PORT" := VStr (py_str remote_addr_1) ]> (
    <[ "REMOTE_ADDR" := VObj remote_addr_0 ]> (
    <[ "CONTENT_LENGTH" := VStr (content_length l) ]> (
    <[ "CONTENT_TYPE" := VStr (content_type l) ]> (
    <[ "RAW_URI" := VStr (ParsedRequest.path req) ]> (
    <[ "QUERY_STRING" := VStr (ParsedRequest.query req) ]> (
    <[ "PATH_INFO" := VStr (unquote path_info) ]> (
    <[ "REQUEST_METHOD" := VStr (ParsedRequest.method req) ]> (
    <[ "SERVER_SOFTWARE" := VStr (SERVER_VERSION self) ]> (
    <[ "SCRIPT_NAME" := VStr (script_name l) ]> (
    <[ "wsgi.run_once" := VBool false ]> (
    <[ "wsgi.multiprocess" := VBool wsgi_multiprocess ]> (
    <[ "wsgi.multithread" := VBool false ]> (
    <[ "wsgi.version" := VVersion 1 0 ]> (
    <[ "wsgi.errors" := VStderr ]> (
    <[ "wsgi.input" := VInput (ParsedRequest.body req) ]> (
    <[ "wsgi.url_scheme" := VStr "http" ]> ∅))))))))))))))))))) in
  ret (add_headers (ParsedRequest.headers req) environ)
  end.

(** [exc_info] is [None] or the triple of an exception being handled.
    The method returns [self.response.write]; here it returns nothing
    and [call_write] is that callable. *)
Definition start_response (status : string) (headers : list (pyobj * pyobj))
    (exc_info : option exc_info) : M Session.t unit :=
  let! self := get in
  run! match exc_info with
       | Some e =>
           match response self with
           | Some r =>
               if ResponseState.headers_sent r then raise (Reraised e) else ret tt
           | None => ret tt
           end
       | None =>
           match response self with
           | Some _ => raise (AssertionError HeadersAlreadySet)
           | None => ret tt
           end
       end in
  let! r := lift (Response.init (RESPONSE_CLASS self) self status headers) in
  put (set_response (Some r) self).

(** A method of [self.response], called on the session's response. *)
Definition on_response {A} (m : M response_self A) : M Session.t A :=
  fun self => match response self with
              | None => (Raise (AttributeError PyNone "write"), self)
              | Some r => let '(o, (r', self')) := m (r, self) in
                          (o, set_response (Some r') self')
              end.

Definition call_write (date : string) (arg : pyobj) : M Session.t unit :=
  on_response (Response.write date arg).

End Request.

(** ** class KeepAliveRequest(Request) *)

Module KeepAliveRequest.

(** [None] is the bare [return] of the handler. *)
Definition read : M Session.t (option (gmap string value)) :=
  try_except
    (let! environ := Request.read in ret (Some environ))
    (fun e => match e with
              | SocketError errno =>
                  if errno =? ECONNRESET then ret None else raise e
              | _ => raise e
              end).

End KeepAliveRequest.

(** ** Notions the properties are stated with *)

(** [sep.join(l)] for a one-character [sep]. *)
Fixpoint join_sep (sep : ascii) (l : list string) : string :=
  match l with
  | [] => EmptyString
  | [s] => s
  | s :: l' => s +:+ String sep (join_sep sep l')
  end.

(** [value.lower().strip() == word] for a value that has [lower]. *)
Definition value_is (word : string) (value : pyobj) : bool :=
  match py_lower value with
  | Return lvalue => String.eqb (PyStr.strip lvalue) word
  | Raise _ => false
  end.

(** The headers the constructor lets through: those that are not
    hop-by-hop, every [Transfer-Encoding], and [Connection: upgrade]. *)
Definition passes (name : string) (value : pyobj) : bool :=
  let lname := PyStr.strip (PyStr.lower name) in
  negb (util.is_hoppish name)
  || String.eqb lname "transfer-encoding"
  || (String.eqb lname "connection" && value_is "upgrade" value).

Definition retained (h : pyobj * pyobj) : option (string * string) :=
  match h with
  | (PyStr name, value) =>
      if passes name value
      then Some (PyStr.strip name, PyStr.strip (py_str value))
      else None
  | _ => None
  end.

Definition sets_chunked (h : pyobj * pyobj) : bool :=
  match h with
  | (PyStr name, value) =>
      util.is_hoppish name
      && String.eqb (PyStr.strip (PyStr.lower name)) "transfer-encoding"
      && value_is "chunked" value
  | _ => false
  end.

(** The calls a handler can make on one response writer, each with the
    clock reading at the time of the call. *)
Inductive call :=
| SendHeaders
| Write (arg : pyobj)
| Close.

Definition run_call (date : string) (c : call) : M response_self unit :=
  match c with
  | SendHeaders => Response.send_headers date
  | Write arg => Response.write date arg
  | Close => Response.close date
  end.

(** A sequence of calls; a call that raises leaves its state to the
    next one, as for a handler that catches the exception. *)
Fixpoint run_calls (cs : list (string * call)) (st : response_self) : response_self :=
  match cs with
  | [] => st
  | (date, c) :: rest => run_calls rest (snd (run_call date c st))
  end.

(** The bytes of a header block: the lines one after the other, each
    header as [Name: Value] and CRLF, and the empty line that ends the
    block. *)
Definition block_bytes (lines : list string) (hs : list (string * string)) : string :=
  foldr String.append
    (foldr (fun h rest => fst h +:+ ": " +:+ snd h +:+ CRLF +:+ rest) CRLF hs)
    lines.

(** The session after its healthy socket has taken the entries [data]. *)
Definition sent (data : list string) (self : Session.t) : Session.t :=
  Session.set_socket
    {| wire := wire (Session.socket self) ++ data; fault := None |} self.

Definition chunk_frame (data : string) : string :=
  PyStr.hex_of_nat (String.length data) +:+ CRLF +:+ data +:+ CRLF.

(** What a call sends besides the header block. *)
Definition body_output (chunked : bool) (c : call) : list string :=
  match c with
  | SendHeaders => []
  | Write (PyStr data) => [if chunked then chunk_frame data else data]
  | Write _ => []
  | Close => if chunked then [chunk_frame ""] else []
  end.

(** The split the specification describes, on the last colon: the host
    is everything before it, the port everything after it, and the port
    is empty when there is no colon. *)
Definition split_last_colon (s : string) : string * string :=
  match reverse (PyStr.split ":" s) with
  | [] | [_] => (s, EmptyString)
  | port :: rhost => (join_sep ":" (reverse rhost), port)
  end.

(** The forwarded address after the loop over the headers of [read]:
    the value of the last [X-Forwarded-For] header, [a] without one. *)
Definition forwarded_for (hs : list (string * string)) (a : address) : address :=
  fold_left (fun a h => if String.eqb (PyStr.lower (fst h)) "x-forwarded-for"
                        then AddrStr (snd h) else a) hs a.

Definition has_header (lname : string) (hs : list (string * string)) : bool :=
  existsb (fun h => String.eqb (PyStr.lower (fst h)) lname) hs.

(** ** Example inputs *)

Module Ex.

Definition sock : Socket := {| wire := []; fault := None |}.
Definition broken (errno : Z) : Socket := {| wire := []; fault := Some errno |}.

Definition get_request (hs : list (string * string)) : ParsedRequest.t :=
  {| ParsedRequest.method := "GET"; ParsedRequest.path := "/app/api/users";
     ParsedRequest.query := ""; ParsedRequest.version := "HTTP/1.1";
     ParsedRequest.headers := hs; ParsedRequest.body := "";
     ParsedRequest.should_close := false |}.

(** A request of a client that asks for the connection to be closed. *)
Definition closing_request : ParsedRequest.t :=
  {| ParsedRequest.method := "GET"; ParsedRequest.path := "/";
     ParsedRequest.query := ""; ParsedRequest.version := "HTTP/1.0";
     ParsedRequest.headers := [("Connection", "close")]; ParsedRequest.body := "";
     ParsedRequest.should_close := true |}.

Definition session (c : response_class) (s : Socket) (client : address)
    (p : list (outcome ParsedRequest.t)) : Session.t :=
  {| Session.RESPONSE_CLASS := c; Session.SERVER_VERSION := "gunicorn/0.6";
     Session.os_SCRIPT_NAME := ""; Session.debug := false;
     Session.socket := s; Session.client_address := client;
     Session.server_address := AddrPair "0.0.0.0" 8000;
     Session.parser := p; Session.response := None; Session.req := None |}.

Definition client : address := AddrStr "192.168.1.5:54321".

(** A session that has read a request and not yet started a response. *)
Definition serving (c : response_class) : Session.t :=
  Session.set_req (Some (get_request [])) (session c sock client []).

Definition response (c : response_class) (chunked sent : bool) : ResponseState.t :=
  {| ResponseState.cls := c; ResponseState.version := "gunicorn/0.6";
     ResponseState.status := "200 OK"; ResponseState.chunked := chunked;
     ResponseState.headers := [("Content-Type", "text/plain")];
     ResponseState.headers_sent := sent |}.

(** A response writer and the session that owns it. *)
Definition writer (c : response_class) (chunked sent : bool) : response_self :=
  (response c chunked sent, serving c).

Definition forwarded : string := "10.0.0.1, 10.0.0.2, 203.0.113.5".

Definition date : string := "Thu, 04 Mar 2010 10:00:00 GMT".

Definition err : exc_info := {| exc_type := "ValueError"; exc_value := "boom" |}.

Definition mixed_headers : list (pyobj * pyobj) :=
  [(PyStr "Keep-Alive", PyStr "timeout=5");
   (PyStr "Connection", PyStr "close");
   (PyStr "Connection", PyStr "Upgrade");
   (PyStr "Upgrade", PyStr "websocket");
   (PyStr "Transfer-Encoding", PyStr "gzip");
   (PyStr "X-Count", PyInt 5)].

End Ex.

(** ** Notions the further properties are stated with *)

(** [Request.__init__]: the class attributes [RESPONSE_CLASS] and
    [SERVER_VERSION], the process environment, the arguments, and no
    request and no response yet. *)
Definition Request__init__ (cls : response_class) (version os_script_name : string)
    (socket : Socket) (client_address server_address : address) (debug : bool)
    (parser : list (outcome ParsedRequest.t)) : Session.t :=
  {| Session.RESPONSE_CLASS := cls; Session.SERVER_VERSION := version;
     Session.os_SCRIPT_NAME := os_script_name; Session.debug := debug;
     Session.socket := socket; Session.client_address := client_address;
     Session.server_address := server_address; Session.parser := parser;
     Session.response := None; Session.req := None |}.

(** The value of the last header named [lname], [d] without one. *)
Definition last_value (lname : string) (hs : list (string * string)) (d : string)
    : string :=
  fold_left (fun a h => if String.eqb (PyStr.lower (fst h)) lname then snd h else a)
    hs d.

Definition continue_line : string := "HTTP/1.1 100 Continue" +:+ CRLF +:+ CRLF.

(** [Expect: 100-continue], both sides compared in lower case. *)
Definition asks_continue (h : string * string) : bool :=
  String.eqb (PyStr.lower (fst h)) "expect"
  && String.eqb (PyStr.lower (snd h)) "100-continue".

(** One interim response line for each header that asks for one. *)
Definition continues (hs : list (string * string)) : list string :=
  flat_map (fun h => if asks_continue h then [continue_line] else []) hs.

(** What one turn of the loop over [req.headers] does to the local
    variables. *)
Definition scan_step (l : Request.locals) (h : string * string) : Request.locals :=
  let name := PyStr.lower (fst h) in
  if String.eqb name "expect" then l
  else if String.eqb name "x-forwarded-for" then
    {| Request.forward_address := AddrStr (snd h); Request.host := Request.host l;
       Request.script_name := Request.script_name l;
       Request.content_type := Request.content_type l;
       Request.content_length := Request.content_length l |}
  else if String.eqb name "host" then
    {| Request.forward_address := Request.forward_address l;
       Request.host := Some (snd h);
       Request.script_name := Request.script_name l;
       Request.content_type := Request.content_type l;
       Request.content_length := Request.content_length l |}
  else if String.eqb name "script_name" then
    {| Request.forward_address := Request.forward_address l;
       Request.host := Request.host l;
       Request.script_name := snd h;
       Request.content_type := Request.content_type l;
       Request.content_length := Request.content_length l |}
  else if String.eqb name "content-type" then
    {| Request.forward_address := Request.forward_address l;
       Request.host := Request.host l;
       Request.script_name := Request.script_name l;
       Request.content_type := snd h;
       Request.content_length := Request.content_length l |}
  else if String.eqb name "content-length" then
    {| Request.forward_address := Request.forward_address l;
       Request.host := Request.host l;
       Request.script_name := Request.script_name l;
       Request.content_type := Request.content_type l;
       Request.content_length := snd h |}
  else l.

Definition scan_locals (hs : list (string * string)) (l : Request.locals)
    : Request.locals :=
  fold_left scan_step hs l.

(** The local variables of [read] before the loop. *)
Definition initial_locals (self : Session.t) : Request.locals :=
  {| Request.forward_address := Request.or_localhost (Session.client_address self);
     Request.host := None;
     Request.script_name := Session.os_SCRIPT_NAME self;
     Request.content_type := ""; Request.content_length := "" |}.

(** The session after the sends [data]: untouched when there are none. *)
Definition after_sends (data : list string) (self : Session.t) : Session.t :=
  match data with
  | [] => self
  | _ => sent data self
  end.

(** [path_info] of [read], lines 193-195. *)
Definition path_info_of (script_name path : string) : string :=
  if PyStr.is_empty script_name then path else PyStr.split1_last script_name path.

(** The dictionary display of [read], lines 198-219. *)
Definition context_of (self : Session.t) (req : ParsedRequest.t) (l : Request.locals)
    (remote_addr_0 remote_addr_1 server_address_0 server_address_1 : pyobj)
    : gmap string value :=
  <[ "SERVER_PROTOCOL" := VStr (ParsedRequest.version req) ]> (
  <[ "SERVER_PORT" := VStr (py_str server_address_1) ]> (
  <[ "SERVER_NAME" := VObj server_address_0 ]> (
  <[ "REMOTE_PORT" := VStr (py_str remote_addr_1) ]> (
  <[ "REMOTE_ADDR" := VObj remote_addr_0 ]> (
  <[ "CONTENT_LENGTH" := VStr (Request.content_length l) ]> (
  <[ "CONTENT_TYPE" := VStr (Request.content_type l) ]> (
  <[ "RAW_URI" := VStr (ParsedRequest.path req) ]> (
  <[ "QUERY_STRING" := VStr (ParsedRequest.query req) ]> (
  <[ "PATH_INFO" :=
       VStr (unquote (path_info_of (Request.script_name l) (ParsedRequest.path req))) ]> (
  <[ "REQUEST_METHOD" := VStr (ParsedRequest.method req) ]> (
  <[ "SERVER_SOFTWARE" := VStr (Session.SERVER_VERSION self) ]> (
  <[ "SCRIPT_NAME" := VStr (Request.script_name l) ]> (
  <[ "wsgi.run_once" := VBool false ]> (
  <[ "wsgi.multiprocess" := VBool (negb (Session.debug self)) ]> (
  <[ "wsgi.multithread" := VBool false ]> (
  <[ "wsgi.version" := VVersion 1 0 ]> (
  <[ "wsgi.errors" := VStderr ]> (
  <[ "wsgi.input" := VInput (ParsedRequest.body req) ]> (
  <[ "wsgi.url_scheme" := VStr "http" ]> ∅))))))))))))))))))).

(** The keys of the dictionary display. *)
Definition fixed_keys : list string :=
  ["wsgi.url_scheme"; "wsgi.input"; "wsgi.errors"; "wsgi.version";
   "wsgi.multithread"; "wsgi.multiprocess"; "wsgi.run_once"; "SCRIPT_NAME";
   "SERVER_SOFTWARE"; "REQUEST_METHOD"; "PATH_INFO"; "QUERY_STRING"; "RAW_URI";
   "CONTENT_TYPE"; "CONTENT_LENGTH"; "REMOTE_ADDR"; "REMOTE_PORT";
   "SERVER_NAME"; "SERVER_PORT"; "SERVER_PROTOCOL"].

(** The headers whose key the loop of lines 221-224 skips. *)
Definition skipped_key (key : string) : bool :=
  bool_decide (key ∈ ["HTTP_CONTENT_TYPE"; "HTTP_CONTENT_LENGTH"]).

(** The headers the constructor of a response runs through without
    raising: the name is a string, and so is the value where the loop
    calls [value.lower()]. *)
Definition accepted (h : pyobj * pyobj) : bool :=
  match h with
  | (PyStr name, value) =>
      let lname := PyStr.strip (PyStr.lower name) in
      if util.is_hoppish name
         && (String.eqb lname "transfer-encoding" || String.eqb lname "connection")
      then is_basestring value
      else true
  | _ => false
  end.

(** A header as [self.headers] keeps it. *)
Definition trimmed (name : string) (value : pyobj) : string * string :=
  (PyStr.strip name, PyStr.strip (py_str value)).

(** * Properties *)

(** ** String facts *)

Lemma hoppish_lower_in (name : string) :
  util.is_hoppish name = true -> PyStr.lower name ∈ util.hop_headers.
Proof. unfold util.is_hoppish. apply bool_decide_eq_true_1. Qed.

(** The names of the hop-by-hop set carry no surrounding whitespace. *)
Lemma hoppish_strip_lower (name : string) :
  util.is_hoppish name = true ->
  PyStr.strip (PyStr.lower name) = PyStr.lower name.
Proof.
  intros H. apply hoppish_lower_in in H. unfold util.hop_headers in H.
  repeat (apply elem_of_cons in H as [-> | H]; [reflexivity |]).
  by apply elem_of_nil in H.
Qed.

Lemma lower_transfer_encoding_hoppish (name : string) :
  PyStr.lower name = "transfer-encoding" -> util.is_hoppish name = true.
Proof.
  intros E. unfold util.is_hoppish. rewrite E. reflexivity.
Qed.

(** ** The constructor's loop *)

Section InitHeaders.

Lemma init_header_spec (name : string) (value : pyobj) (chunked : bool) o :
  Response.init_header name value chunked = Return o ->
  o = (chunked || sets_chunked (PyStr name, value), retained (PyStr name, value)).
Proof.
  unfold Response.init_header, retained, sets_chunked, passes, value_is.
  destruct (util.is_hoppish name); simpl.
  - destruct (String.eqb (PyStr.strip (PyStr.lower name)) "transfer-encoding") eqn:Ete; simpl.
    + destruct (py_lower value) as [lv|]; [|discriminate].
      destruct (String.eqb (PyStr.strip lv) "chunked"); intros [= <-];
        by rewrite ?orb_true_r, ?orb_false_r.
    + destruct (String.eqb (PyStr.strip (PyStr.lower name)) "connection"); simpl.
      * destruct (py_lower value) as [lv|]; [|discriminate].
        destruct (String.eqb (PyStr.strip lv) "upgrade"); simpl; intros [= <-];
          by rewrite orb_false_r.
      * intros [= <-]. by rewrite orb_false_r.
  - intros [= <-]. by rewrite orb_false_r.
Qed.

(** What a run of the loop that ends without an exception leaves in
    [self.chunked] and [self.headers]. *)
Lemma init_headers_spec hs : forall chunked acc chunked' out,
  Response.init_headers hs chunked acc = Return (chunked', out) ->
  chunked' = chunked || existsb sets_chunked hs /\ out = acc ++ omap retained hs.
Proof.
  induction hs as [|[name value] rest IH]; intros chunked acc chunked' out.
  - simpl. intros [= <- <-]. by rewrite orb_false_r, app_nil_r.
  - assert (omap retained ((name, value) :: rest)
            = match retained (name, value) with
              | Some h => h :: omap retained rest
              | None => omap retained rest
              end) as -> by reflexivity.
    assert (existsb sets_chunked ((name, value) :: rest)
            = sets_chunked (name, value) || existsb sets_chunked rest)
      as -> by reflexivity.
    cbn [Response.init_headers].
    destruct name as [name| | |? ?]; try discriminate.
    destruct (Response.init_header name value chunked) as [[ch1 o1]|] eqn:Eh;
      [|discriminate].
    apply init_header_spec in Eh.
    set (sc := sets_chunked (PyStr name, value)) in *.
    set (rt := retained (PyStr name, value)) in *.
    injection Eh as -> ->.
    destruct rt as [h|]; intros H; apply IH in H as [-> ->]; split.
    all: try (by rewrite orb_assoc).
    all: by rewrite <- ?app_assoc.
Qed.

Lemma init_spec c req status hs r :
  Response.init c req status hs = Return r ->
  ResponseState.chunked r = existsb sets_chunked hs
  /\ ResponseState.headers r = omap retained hs
  /\ ResponseState.headers_sent r = false
  /\ ResponseState.cls r = c
  /\ ResponseState.status r = status.
Proof.
  unfold Response.init.
  destruct (Response.init_headers hs false []) as [[ch out]|] eqn:E; [|discriminate].
  apply init_headers_spec in E as [-> ->]. by intros [= <-].
Qed.

(** The loop raises only on a name that is not a string or on a
    [Transfer-Encoding] or [Connection] value that is not one. *)
Lemma init_headers_strings hs : forall chunked acc,
  Forall (fun h => is_basestring (fst h) = true /\ is_basestring (snd h) = true) hs ->
  exists chunked' out, Response.init_headers hs chunked acc = Return (chunked', out).
Proof.
  induction hs as [|[name value] rest IH]; intros chunked acc Hall; simpl.
  - eauto.
  - apply Forall_cons in Hall as [[Hn Hv] Hall]. simpl in Hn, Hv.
    destruct name as [name| | |? ?]; try discriminate.
    destruct value as [v| | |? ?]; try discriminate.
    unfold Response.init_header; simpl.
    repeat match goal with
           | |- context [if ?b then _ else _] => destruct b
           end; by apply IH.
Qed.

Lemma init_strings c req status hs :
  Forall (fun h => is_basestring (fst h) = true /\ is_basestring (snd h) = true) hs ->
  exists r, Response.init c req status hs = Return r.
Proof.
  intros H. unfold Response.init.
  destruct (init_headers_strings hs false [] H) as (ch & out & ->). eauto.
Qed.

End InitHeaders.


(** ** Response.__init__: hop-by-hop headers *)

(** C2, as the claim states it, fails: the constructor called with the
    one header [Transfer-Encoding: chunked] sets the chunked flag and
    keeps the header in [self.headers]. *)
Lemma transfer_encoding_chunked_is_echoed :
  ~ (forall r,
       Response.init BaseResponse (Ex.serving BaseResponse) "200 OK"
         [(PyStr "Transfer-Encoding", PyStr "chunked")] = Return r ->
       ResponseState.chunked r = true
       /\ forall h, h ∈ ResponseState.headers r ->
                    PyStr.lower (fst h) <> "transfer-encoding").
Proof.
  intros H. edestruct H as [_ Hn]; [vm_compute; reflexivity|].
  apply (Hn ("Transfer-Encoding", "chunked")); [|reflexivity].
  apply list_elem_of_singleton. reflexivity.
Qed.

(** C2, amended: a [Transfer-Encoding] header whose value is [chunked],
    case-insensitively and after trimming, sets the chunked flag of the
    response the constructor returns, and the header itself, trimmed,
    stays in the response's outgoing header list. *)
Theorem transfer_encoding_chunked_sets_flag_and_is_kept
    c req status hs r (name value : string) :
  Response.init c req status hs = Return r ->
  (PyStr name, PyStr value) ∈ hs ->
  PyStr.lower name = "transfer-encoding" ->
  PyStr.strip (PyStr.lower value) = "chunked" ->
  ResponseState.chunked r = true
  /\ (PyStr.strip name, PyStr.strip value) ∈ ResponseState.headers r.
Proof.
  intros Hinit Hin Hname Hvalue.
  apply init_spec in Hinit as (Hch & Hhs & _). rewrite Hch, Hhs.
  pose proof (lower_transfer_encoding_hoppish name Hname) as Hhop.
  pose proof (hoppish_strip_lower name Hhop) as Hstrip.
  split.
  - apply existsb_exists. exists (PyStr name, PyStr value). split.
    + by apply list_elem_of_In.
    + unfold sets_chunked, value_is. simpl.
      by rewrite Hhop, Hstrip, Hname, Hvalue.
  - apply list_elem_of_omap. exists (PyStr name, PyStr value). split; [done|].
    unfold retained, passes. by rewrite Hhop, Hstrip, Hname.
Qed.

Lemma transfer_encoding_chunked_sets_flag_and_is_kept_witness :
  exists r,
    Response.init KeepAliveResponseClass (Ex.serving KeepAliveResponseClass) "200 OK"
      [(PyStr "Content-Type", PyStr "text/plain");
       (PyStr "transfer-ENCODING", PyStr " Chunked ")] = Return r
    /\ ResponseState.chunked r = true
    /\ ("transfer-ENCODING", "Chunked") ∈ ResponseState.headers r.
Proof.
  eexists. split; [vm_compute; reflexivity|].
  apply (transfer_encoding_chunked_sets_flag_and_is_kept
           KeepAliveResponseClass (Ex.serving KeepAliveResponseClass) "200 OK"
           [(PyStr "Content-Type", PyStr "text/plain");
            (PyStr "transfer-ENCODING", PyStr " Chunked ")]
           _ "transfer-ENCODING" " Chunked ").
  - vm_compute; reflexivity.
  - apply list_elem_of_further, list_elem_of_here.
  - reflexivity.
  - reflexivity.
Defined.

(** C6, as the claim states it, fails: [Transfer-Encoding: gzip] is a
    hop-by-hop header, it is neither [Transfer-Encoding: chunked] nor
    [Connection: Upgrade], and the constructor keeps it. *)
Lemma transfer_encoding_gzip_is_kept :
  ~ (forall r,
       Response.init BaseResponse (Ex.serving BaseResponse) "200 OK"
         [(PyStr "Transfer-Encoding", PyStr "gzip")] = Return r ->
       forall h, h ∈ ResponseState.headers r ->
         util.is_hoppish (fst h) = true ->
         (PyStr.lower (fst h) = "transfer-encoding"
          /\ PyStr.strip (PyStr.lower (snd h)) = "chunked")
         \/ (PyStr.lower (fst h) = "connection"
             /\ PyStr.strip (PyStr.lower (snd h)) = "upgrade")).
Proof.
  intros H.
  edestruct (H _ ltac:(vm_compute; reflexivity) ("Transfer-Encoding", "gzip"))
    as [[_ Hv] | [Hn _]].
  - apply list_elem_of_singleton. reflexivity.
  - reflexivity.
  - discriminate Hv.
  - discriminate Hn.
Qed.

Lemma is_space_lower_char c :
  Ascii.is_space (PyStr.lower_char c) = Ascii.is_space c.
Proof. by destruct c as [[] [] [] [] [] [] [] []]. Qed.

Lemma is_empty_lower s : PyStr.is_empty (PyStr.lower s) = PyStr.is_empty s.
Proof. by destruct s. Qed.

Lemma lstrip_lower s : PyStr.lstrip (PyStr.lower s) = PyStr.lower (PyStr.lstrip s).
Proof.
  induction s as [|c s IH]; [reflexivity|].
  cbn [PyStr.lower PyStr.map PyStr.lstrip]. rewrite is_space_lower_char.
  by destruct (Ascii.is_space c).
Qed.

Lemma rstrip_lower s : PyStr.rstrip (PyStr.lower s) = PyStr.lower (PyStr.rstrip s).
Proof.
  induction s as [|c s IH]; [reflexivity|].
  cbn [PyStr.lower PyStr.map PyStr.rstrip].
  change (PyStr.map PyStr.lower_char s) with (PyStr.lower s).
  rewrite IH, is_space_lower_char, is_empty_lower.
  by destruct (Ascii.is_space c && PyStr.is_empty (PyStr.rstrip s)).
Qed.

(** Lower case and trimming can be taken in either order. *)
Lemma strip_lower s : PyStr.strip (PyStr.lower s) = PyStr.lower (PyStr.strip s).
Proof. unfold PyStr.strip. by rewrite lstrip_lower, rstrip_lower. Qed.

Lemma rstrip_rstrip s : PyStr.rstrip (PyStr.rstrip s) = PyStr.rstrip s.
Proof.
  induction s as [|c s IH]; [reflexivity|].
  cbn [PyStr.rstrip].
  destruct (Ascii.is_space c && PyStr.is_empty (PyStr.rstrip s)) eqn:E;
    [reflexivity|].
  cbn [PyStr.rstrip]. by rewrite IH, E.
Qed.

Lemma lstrip_head s :
  PyStr.lstrip s = ""
  \/ exists c t, PyStr.lstrip s = String c t /\ Ascii.is_space c = false.
Proof.
  induction s as [|c s IH]; [by left|].
  cbn [PyStr.lstrip]. destruct (Ascii.is_space c) eqn:E; [exact IH|].
  right. by exists c, s.
Qed.

(** Trimming a trimmed string changes nothing. *)
Lemma strip_strip s : PyStr.strip (PyStr.strip s) = PyStr.strip s.
Proof.
  unfold PyStr.strip.
  destruct (lstrip_head s) as [-> | (c & t & -> & Hc)]; [reflexivity|].
  cbn [PyStr.rstrip]. rewrite Hc. cbn [andb PyStr.lstrip]. rewrite Hc.
  cbn [PyStr.rstrip]. rewrite rstrip_rstrip, Hc. reflexivity.
Qed.

(** C6, amended: for a header list in which no name is a hop-by-hop name
    with whitespace around it, the header list of the response has no
    hop-by-hop header other than [Transfer-Encoding] headers and
    [Connection] headers whose value is [upgrade], in any case and
    trimmed: Keep-Alive, Proxy-Authenticate, Proxy-Authorization, TE,
    Trailers and Upgrade are absent, and so is every other [Connection]
    header. Every [Transfer-Encoding] header of the input is in the
    list, whatever its value, and the value [chunked] sets the chunked
    flag as well; every [Connection: upgrade] header of the input is in
    the list. *)
Theorem hop_by_hop_headers_filtered c req status hs r :
  Response.init c req status hs = Return r ->
  (forall name value,
     (PyStr name, value) ∈ hs ->
     util.is_hoppish (PyStr.strip name) = util.is_hoppish name) ->
  (forall h, h ∈ ResponseState.headers r ->
     util.is_hoppish (fst h) = true ->
     PyStr.lower (fst h) = "transfer-encoding"
     \/ (PyStr.lower (fst h) = "connection"
         /\ PyStr.strip (PyStr.lower (snd h)) = "upgrade"))
  /\ (forall name value,
        (PyStr name, value) ∈ hs ->
        PyStr.lower name = "transfer-encoding" ->
        (PyStr.strip name, PyStr.strip (py_str value)) ∈ ResponseState.headers r)
  /\ (forall name value,
        (PyStr name, PyStr value) ∈ hs ->
        PyStr.lower name = "transfer-encoding" ->
        PyStr.strip (PyStr.lower value) = "chunked" ->
        ResponseState.chunked r = true)
  /\ (forall name value,
        (PyStr name, value) ∈ hs ->
        PyStr.lower name = "connection" ->
        value_is "upgrade" value = true ->
        (PyStr.strip name, PyStr.strip (py_str value)) ∈ ResponseState.headers r).
Proof.
  intros Hinit Hpad. apply init_spec in Hinit as (Hch & Hhs & _). rewrite Hhs, Hch.
  split; [|split; [|split]].
  - intros h Hh Hhop. apply list_elem_of_omap in Hh as ([name value] & Hin & Hret).
    destruct name as [name| | |? ?]; try discriminate Hret.
    unfold retained, passes in Hret.
    destruct (util.is_hoppish name) eqn:Hn; simpl in Hret.
    + rewrite (hoppish_strip_lower name Hn) in Hret.
      assert (PyStr.lower (PyStr.strip name) = PyStr.lower name) as Hlow
        by (by rewrite <- strip_lower, (hoppish_strip_lower name Hn)).
      destruct (String.eqb (PyStr.lower name) "transfer-encoding") eqn:Ete;
        simpl in Hret.
      * injection Hret as <-. left. cbn [fst]. rewrite Hlow.
        by apply String.eqb_eq.
      * destruct (String.eqb (PyStr.lower name) "connection") eqn:Eco;
          simpl in Hret; [|discriminate].
        destruct (value_is "upgrade" value) eqn:Eup; [|discriminate].
        injection Hret as <-. right. cbn [fst snd]. rewrite Hlow.
        split; [by apply String.eqb_eq|].
        unfold value_is in Eup. destruct value as [v| | |? ?]; try discriminate Eup.
        simpl in Eup. apply String.eqb_eq in Eup. cbn [py_str].
        by rewrite <- strip_lower, strip_strip.
    + injection Hret as <-. cbn [fst] in Hhop.
      rewrite (Hpad name value Hin) in Hhop. congruence.
  - intros name value Hin Hname.
    apply list_elem_of_omap. exists (PyStr name, value). split; [done|].
    pose proof (lower_transfer_encoding_hoppish name Hname) as Hn.
    unfold retained, passes.
    by rewrite Hn, (hoppish_strip_lower name Hn), Hname.
  - intros name value Hin Hname Hvalue.
    apply existsb_exists. exists (PyStr name, PyStr value).
    split; [by apply list_elem_of_In|].
    pose proof (lower_transfer_encoding_hoppish name Hname) as Hn.
    unfold sets_chunked, value_is. simpl.
    by rewrite Hn, (hoppish_strip_lower name Hn), Hname, Hvalue.
  - intros name value Hin Hname Hup.
    apply list_elem_of_omap. exists (PyStr name, value). split; [done|].
    assert (util.is_hoppish name = true) as Hn.
    { unfold util.is_hoppish. by rewrite Hname. }
    unfold retained, passes.
    by rewrite Hn, (hoppish_strip_lower name Hn), Hname, Hup.
Qed.

Lemma hop_by_hop_headers_filtered_witness :
  exists r,
    Response.init BaseResponse (Ex.serving BaseResponse) "200 OK" Ex.mixed_headers
      = Return r
    /\ ResponseState.headers r
       = [("Connection", "Upgrade"); ("Transfer-Encoding", "gzip"); ("X-Count", "5")]
    /\ ("Transfer-Encoding", "gzip") ∈ ResponseState.headers r
    /\ ~ ("Keep-Alive", "timeout=5") ∈ ResponseState.headers r
    /\ ~ ("Upgrade", "websocket") ∈ ResponseState.headers r.
Proof.
  destruct (Response.init BaseResponse (Ex.serving BaseResponse) "200 OK"
              Ex.mixed_headers) as [r|] eqn:E; [|discriminate E].
  exists r. split; [reflexivity|].
  split; [by vm_compute in E; injection E as <-|].
  assert (forall name value,
            (PyStr name, value) ∈ Ex.mixed_headers ->
            util.is_hoppish (PyStr.strip name) = util.is_hoppish name) as Hpad.
  { intros name value Hin. unfold Ex.mixed_headers in Hin.
    repeat (apply elem_of_cons in Hin as [Hin | Hin];
            [injection Hin as -> _; reflexivity|]).
    by apply elem_of_nil in Hin. }
  destruct (hop_by_hop_headers_filtered _ _ _ _ _ E Hpad) as (Habsent & Hte & _).
  split; [|split].
  - apply (Hte "Transfer-Encoding" (PyStr "gzip")).
    + do 4 apply list_elem_of_further. apply list_elem_of_here.
    + reflexivity.
  - intros Hin. destruct (Habsent _ Hin eq_refl) as [Hn | [Hn _]]; discriminate Hn.
  - intros Hin. destruct (Habsent _ Hin eq_refl) as [Hn | [Hn _]]; discriminate Hn.
Defined.

(** ** The response writer *)

Section Writer.

Import ResponseState.

Implicit Types (r : ResponseState.t) (self : Session.t) (st : response_self).

Lemma on_socket_send data r self :
  fault (Session.socket self) = None ->
  Response.on_socket (send data) (r, self) = (Return tt, (r, sent [data] self)).
Proof.
  intros Hf. unfold Response.on_socket, Session.on_socket, zoom, send. simpl.
  by rewrite Hf.
Qed.

Lemma sent_nil self :
  fault (Session.socket self) = None -> sent [] self = self.
Proof.
  destruct self as [? ? ? ? [w f] ? ? ? ? ?]. simpl. intros ->.
  unfold sent, Session.set_socket. simpl. by rewrite app_nil_r.
Qed.

Lemma sent_sent a b self : sent b (sent a self) = sent (a ++ b) self.
Proof. unfold sent, Session.set_socket. simpl. by rewrite app_assoc. Qed.

Lemma sent_healthy a self : fault (Session.socket (sent a self)) = None.
Proof. reflexivity. Qed.

Lemma sent_wire a self :
  wire (Session.socket (sent a self)) = wire (Session.socket self) ++ a.
Proof. reflexivity. Qed.

Lemma sent_req a self : Session.req (sent a self) = Session.req self.
Proof. reflexivity. Qed.

(** [default_headers] only reads. *)
Lemma self_default_headers_pure date st :
  snd (Response.self_default_headers date st) = st.
Proof.
  unfold Response.self_default_headers, KeepAliveResponse.default_headers,
    bind, get, ret, raise.
  destruct (cls (fst st)); [reflexivity|].
  by destruct (Session.req (snd st)).
Qed.

Lemma send_headers_sent date st :
  headers_sent (fst st) = true -> Response.send_headers date st = (Return tt, st).
Proof. intros H. unfold Response.send_headers, bind, get. by rewrite H. Qed.

Lemma send_headers_fresh date r self tosend :
  headers_sent r = false ->
  fault (Session.socket self) = None ->
  fst (Response.self_default_headers date (r, self)) = Return tosend ->
  Response.send_headers date (r, self)
  = (Return tt, (set_headers_sent true r,
                 sent [Response.header_block tosend r] self)).
Proof.
  intros Hs Hf Hd. unfold Response.send_headers, bind, get. simpl. rewrite Hs.
  pose proof (self_default_headers_pure date (r, self)) as Hp.
  destruct (Response.self_default_headers date (r, self)) as [o st'].
  simpl in Hd, Hp. subst o st'.
  unfold util.write. by rewrite on_socket_send.
Qed.

(** Once the headers are out, a call sends its body output and nothing
    else, whether it returns or raises. *)
Lemma run_call_sent date c r self :
  headers_sent r = true ->
  fault (Session.socket self) = None ->
  snd (run_call date c (r, self)) = (r, sent (body_output (chunked r) c) self).
Proof.
  intros Hs Hf. destruct c as [|arg|]; simpl.
  - rewrite send_headers_sent by done. simpl. by rewrite sent_nil.
  - unfold Response.write, bind. rewrite send_headers_sent by done.
    destruct arg as [data| | |? ?]; simpl; try by rewrite sent_nil.
    unfold util.write, util.write_chunk, chunk_frame.
    destruct (chunked r); by rewrite on_socket_send.
  - unfold Response.close, bind, get. simpl. rewrite Hs. simpl.
    unfold util.write_chunk, chunk_frame.
    destruct (chunked r); [by rewrite on_socket_send | by rewrite sent_nil].
Qed.

Lemma run_calls_sent cs : forall r self,
  headers_sent r = true ->
  fault (Session.socket self) = None ->
  run_calls cs (r, self)
  = (r, sent (flat_map (body_output (chunked r)) (snd <$> cs)) self).
Proof.
  induction cs as [|[date c] cs IH]; intros r self Hs Hf; simpl.
  - by rewrite sent_nil.
  - rewrite run_call_sent by done. rewrite IH by done. by rewrite sent_sent.
Qed.

(** The first call on a fresh writer sends the header block, then its
    body output. *)
Lemma run_call_fresh date c r self tosend :
  headers_sent r = false ->
  fault (Session.socket self) = None ->
  fst (Response.self_default_headers date (r, self)) = Return tosend ->
  snd (run_call date c (r, self))
  = (set_headers_sent true r,
     sent (Response.header_block tosend r :: body_output (chunked r) c) self).
Proof.
  intros Hs Hf Hd.
  pose proof (send_headers_fresh date r self tosend Hs Hf Hd) as Hsend.
  destruct c as [|arg|]; simpl.
  - by rewrite Hsend.
  - unfold Response.write, bind. rewrite Hsend.
    destruct arg as [data| | |? ?]; simpl; try reflexivity.
    unfold util.write, util.write_chunk, chunk_frame.
    destruct (chunked r); rewrite on_socket_send by done; simpl;
      by rewrite sent_sent.
  - unfold Response.close, bind, get. simpl. rewrite Hs. simpl. rewrite Hsend.
    simpl. unfold util.write_chunk, chunk_frame.
    destruct (chunked r); [|reflexivity].
    rewrite on_socket_send by done. by rewrite sent_sent.
Qed.

End Writer.

(** C3, as the claim states it, fails: [write] with the integer 7 on a
    response whose headers are not yet sent raises the assertion only
    after [send_headers] has put the header block on the wire. *)
Lemma write_non_string_sends_headers_first :
  ~ (exists e,
       fst (Response.write Ex.date (PyInt 7) (Ex.writer BaseResponse false false))
       = Raise e
       /\ wire (Session.socket (snd (snd
             (Response.write Ex.date (PyInt 7) (Ex.writer BaseResponse false false)))))
          = wire (Session.socket (snd (Ex.writer BaseResponse false false)))).
Proof. intros (e & _ & Hw). vm_compute in Hw. discriminate Hw. Qed.

Lemma str_app_assoc (a b c : string) : (a +:+ b) +:+ c = a +:+ (b +:+ c).
Proof.
  induction a as [|x a IH]; [reflexivity|].
  change (String x ((a +:+ b) +:+ c) = String x (a +:+ (b +:+ c))).
  by rewrite IH.
Qed.

(** The string [send_headers] builds is the lines one after the other,
    each retained header as [Name: Value] and CRLF, and the empty line. *)
Lemma header_block_bytes tosend (r : ResponseState.t) :
  Response.header_block tosend r = block_bytes tosend (ResponseState.headers r).
Proof.
  unfold Response.header_block, block_bytes.
  induction tosend as [|line tosend IH]; cbn [app PyStr.join foldr].
  - induction (ResponseState.headers r) as [|h hs IHh]; [reflexivity|].
    cbn [map PyStr.join foldr]. unfold Response.header_line at 1.
    rewrite !str_app_assoc. by rewrite IHh.
  - by rewrite str_app_assoc, IH.
Qed.

(** The four lines [self.default_headers()] gives, by the class of the
    response. *)
Lemma self_default_headers_lines date r self connection :
  (ResponseState.cls r = BaseResponse /\ connection = "close")
  \/ (ResponseState.cls r = KeepAliveResponseClass
      /\ exists preq,
           Session.req self = Some preq
           /\ connection = if ParsedRequest.should_close preq
                           then "close" else "keep-alive") ->
  fst (Response.self_default_headers date (r, self))
  = Return ["HTTP/1.1 " +:+ ResponseState.status r +:+ CRLF;
            "Server: " +:+ ResponseState.version r +:+ CRLF;
            "Date: " +:+ date +:+ CRLF;
            "Connection: " +:+ connection +:+ CRLF].
Proof.
  unfold Response.self_default_headers, KeepAliveResponse.default_headers,
    Response.default_headers, bind, get, ret. simpl.
  intros [[Hc ->] | (Hc & preq & Hreq & ->)]; rewrite Hc; simpl;
    rewrite ?Hreq; reflexivity.
Qed.

(** C3, amended: [write] with a value that is not a string always
    fails and writes no body bytes; what it does to the response and to
    the transport is what [send_headers], which it runs first, does.
    When the headers were already sent nothing is written; when they
    were not, the header block alone is written before the failure, on
    a healthy transport. Where [send_headers] returns, the failure is
    the typed validation error of the assertion on the argument, an
    [AssertionError], or the [TypeError] of formatting its message for
    a tuple of a length other than one; where [send_headers] raises,
    that error is the failure. *)
Theorem write_rejects_non_string date arg (st : response_self) :
  is_basestring arg = false ->
  (forall st',
     Response.send_headers date st = (Return tt, st') ->
     Response.write date arg st = (Raise (assert_failure NotAStringDot arg), st'))
  /\ (forall e st',
        Response.send_headers date st = (Raise e, st') ->
        Response.write date arg st = (Raise e, st'))
  /\ (exists e, fst (Response.write date arg st) = Raise e)
  /\ snd (Response.write date arg st) = snd (Response.send_headers date st)
  /\ (ResponseState.headers_sent (fst st) = true ->
      Response.write date arg st = (Raise (assert_failure NotAStringDot arg), st))
  /\ (forall tosend,
        ResponseState.headers_sent (fst st) = false ->
        fault (Session.socket (snd st)) = None ->
        fst (Response.self_default_headers date st) = Return tosend ->
        Response.write date arg st
        = (Raise (assert_failure NotAStringDot arg),
           (ResponseState.set_headers_sent true (fst st),
            sent [block_bytes tosend (ResponseState.headers (fst st))] (snd st))))
  /\ ((exists item, assert_failure NotAStringDot arg
                    = AssertionError (NotAStringDot item))
      \/ (exists items shown message,
            arg = PyTuple items shown /\ length items <> 1%nat
            /\ assert_failure NotAStringDot arg = TypeError message)).
Proof.
  intros Harg.
  assert (forall o st', Response.send_headers date st = (o, st') ->
            Response.write date arg st
            = (match o with
               | Return _ => Raise (assert_failure NotAStringDot arg)
               | Raise e => Raise e
               end, st')) as Hw.
  { intros o st' E. unfold Response.write, bind. rewrite E.
    destruct o as [[]|e]; [|reflexivity].
    destruct arg; [discriminate Harg | reflexivity | reflexivity | reflexivity]. }
  split; [intros st' E; apply (Hw _ _ E)|].
  split; [intros e st' E; apply (Hw _ _ E)|].
  destruct (Response.send_headers date st) as [o st'] eqn:E.
  rewrite (Hw o st' eq_refl). simpl. split; [destruct o; eauto|].
  split; [reflexivity|]. split; [|split].
  - intros Hs. rewrite send_headers_sent in E by done. by injection E as <- <-.
  - intros tosend Hs Hf Hd. destruct st as [r self]. simpl in *.
    rewrite (send_headers_fresh date r self tosend Hs Hf Hd) in E.
    injection E as <- <-. by rewrite header_block_bytes.
  - destruct arg as [s|n| |[|item [|item2 items]] shown]; try discriminate Harg;
      try (left; eexists; reflexivity).
    + right. by exists [], shown, "not enough arguments for format string".
    + right. exists (item :: item2 :: items), shown. eexists.
      split; [reflexivity|]. split; [simpl; lia | reflexivity].
Qed.

Lemma write_rejects_non_string_witness :
  Response.write Ex.date PyNone (Ex.writer BaseResponse true true)
  = (Raise (AssertionError (NotAStringDot PyNone)), Ex.writer BaseResponse true true)
  /\ Response.write Ex.date (PyTuple [PyInt 1; PyInt 2] "(1, 2)")
       (Ex.writer BaseResponse true true)
     = (Raise (TypeError "not all arguments converted during string formatting"),
        Ex.writer BaseResponse true true)
  /\ Response.write Ex.date (PyInt 7) (Ex.writer KeepAliveResponseClass true false)
     = (Raise (AssertionError (NotAStringDot (PyInt 7))),
        (Ex.response KeepAliveResponseClass true true,
         sent [("HTTP/1.1 200 OK" +:+ CRLF) +:+ ("Server: gunicorn/0.6" +:+ CRLF)
               +:+ ("Date: " +:+ Ex.date +:+ CRLF)
               +:+ ("Connection: keep-alive" +:+ CRLF)
               +:+ ("Content-Type: text/plain" +:+ CRLF) +:+ CRLF]
           (Ex.serving KeepAliveResponseClass))).
Proof.
  split; [|split].
  - apply (write_rejects_non_string Ex.date PyNone
             (Ex.writer BaseResponse true true) eq_refl).
    reflexivity.
  - apply (write_rejects_non_string Ex.date (PyTuple [PyInt 1; PyInt 2] "(1, 2)")
             (Ex.writer BaseResponse true true) eq_refl).
    reflexivity.
  - destruct (write_rejects_non_string Ex.date (PyInt 7)
                (Ex.writer KeepAliveResponseClass true false) eq_refl)
      as (_ & _ & _ & _ & _ & Hw & _).
    exact (Hw _ eq_refl eq_refl eq_refl).
Defined.

(** C5: on a healthy transport, whatever calls are made on a response
    writer whose headers are not yet sent, and however many, the first
    call writes the header block, in one piece: the status line, the
    [Server] line, the [Date] line, the [Connection] line of the
    variant, one line per retained header and the empty line; every
    later call writes body output only, so the wire holds the block
    once, in front of the body frames; [send_headers] on a writer whose
    headers-sent flag is set changes nothing. *)
Theorem header_block_written_once date c cs r self connection :
  ResponseState.headers_sent r = false ->
  fault (Session.socket self) = None ->
  (ResponseState.cls r = BaseResponse /\ connection = "close")
  \/ (ResponseState.cls r = KeepAliveResponseClass
      /\ exists preq,
           Session.req self = Some preq
           /\ connection = if ParsedRequest.should_close preq
                           then "close" else "keep-alive") ->
  wire (Session.socket (snd (run_calls ((date, c) :: cs) (r, self))))
  = wire (Session.socket self)
    ++ block_bytes
         ["HTTP/1.1 " +:+ ResponseState.status r +:+ CRLF;
          "Server: " +:+ ResponseState.version r +:+ CRLF;
          "Date: " +:+ date +:+ CRLF;
          "Connection: " +:+ connection +:+ CRLF]
         (ResponseState.headers r)
       :: flat_map (body_output (ResponseState.chunked r)) (c :: (snd <$> cs))
  /\ ResponseState.headers_sent (fst (run_calls ((date, c) :: cs) (r, self))) = true
  /\ (forall date' st,
        ResponseState.headers_sent (fst st) = true ->
        Response.send_headers date' st = (Return tt, st)).
Proof.
  intros Hs Hf Hconn.
  pose proof (self_default_headers_lines date r self connection Hconn) as Hd.
  split; [|split].
  - cbn [run_calls]. rewrite (run_call_fresh date c r self _ Hs Hf Hd).
    rewrite run_calls_sent by done. rewrite sent_sent, header_block_bytes.
    reflexivity.
  - cbn [run_calls]. rewrite (run_call_fresh date c r self _ Hs Hf Hd).
    by rewrite run_calls_sent.
  - intros date' st. apply send_headers_sent.
Qed.

Lemma header_block_written_once_witness :
  wire (Session.socket (snd (run_calls
    [(Ex.date, Write (PyStr "hello")); (Ex.date, SendHeaders);
     (Ex.date, Write (PyInt 3)); (Ex.date, Write (PyStr ", world"));
     (Ex.date, Close); (Ex.date, SendHeaders)]
    (Ex.writer KeepAliveResponseClass true false))))
  = [("HTTP/1.1 200 OK" +:+ CRLF) +:+ ("Server: gunicorn/0.6" +:+ CRLF)
     +:+ ("Date: Thu, 04 Mar 2010 10:00:00 GMT" +:+ CRLF)
     +:+ ("Connection: keep-alive" +:+ CRLF)
     +:+ ("Content-Type: text/plain" +:+ CRLF) +:+ CRLF;
     "5" +:+ CRLF +:+ "hello" +:+ CRLF;
     "7" +:+ CRLF +:+ ", world" +:+ CRLF;
     "0" +:+ CRLF +:+ CRLF]
  /\ Response.send_headers Ex.date (Ex.writer BaseResponse false true)
     = (Return tt, Ex.writer BaseResponse false true).
Proof.
  destruct (header_block_written_once Ex.date (Write (PyStr "hello"))
              [(Ex.date, SendHeaders); (Ex.date, Write (PyInt 3));
               (Ex.date, Write (PyStr ", world")); (Ex.date, Close);
               (Ex.date, SendHeaders)]
              (Ex.response KeepAliveResponseClass true false)
              (Ex.serving KeepAliveResponseClass) "keep-alive"
              eq_refl eq_refl
              (or_intror (conj eq_refl
                 (ex_intro _ (Ex.get_request []) (conj eq_refl eq_refl)))))
    as (Hwire & _ & Hnoop).
  split; [exact Hwire|].
  apply Hnoop. reflexivity.
Defined.

(** ** The Connection line *)

(** C7: the header lines of the keep-alive variant are those of the
    base variant with the [Connection] line replaced: its value is
    [close] when the parsed request's [should_close] is true and
    [keep-alive] otherwise; a response of that class gets these lines
    from [self.default_headers()]. *)
Theorem keep_alive_connection_header date r self preq :
  Session.req self = Some preq ->
  KeepAliveResponse.default_headers date (r, self)
  = (Return (<[3%nat := "Connection: "
                        +:+ (if ParsedRequest.should_close preq
                             then "close" else "keep-alive") +:+ CRLF]>
               (Response.default_headers date r)),
     (r, self))
  /\ (ResponseState.cls r = KeepAliveResponseClass ->
      Response.self_default_headers date (r, self)
      = KeepAliveResponse.default_headers date (r, self))
  /\ (ParsedRequest.should_close preq = true ->
      fst (KeepAliveResponse.default_headers date (r, self))
      = Return (Response.default_headers date r)).
Proof.
  intros Hreq.
  assert (KeepAliveResponse.default_headers date (r, self)
          = (Return (<[3%nat := "Connection: "
                        +:+ (if ParsedRequest.should_close preq
                             then "close" else "keep-alive") +:+ CRLF]>
               (Response.default_headers date r)),
             (r, self))) as E.
  { unfold KeepAliveResponse.default_headers, bind, get, ret. simpl.
    by rewrite Hreq. }
  split; [exact E|]. split.
  - intros Hc. unfold Response.self_default_headers, bind, get. simpl.
    by rewrite Hc.
  - intros Hclose. rewrite E, Hclose. reflexivity.
Qed.

Lemma keep_alive_connection_header_witness :
  fst (KeepAliveResponse.default_headers Ex.date
         (Ex.response KeepAliveResponseClass false false,
          Ex.serving KeepAliveResponseClass))
  = Return ["HTTP/1.1 200 OK" +:+ CRLF; "Server: gunicorn/0.6" +:+ CRLF;
            "Date: " +:+ Ex.date +:+ CRLF; "Connection: keep-alive" +:+ CRLF]
  /\ fst (KeepAliveResponse.default_headers Ex.date
            (Ex.response KeepAliveResponseClass false false,
             Session.set_req (Some Ex.closing_request)
               (Ex.serving KeepAliveResponseClass)))
     = Return ["HTTP/1.1 200 OK" +:+ CRLF; "Server: gunicorn/0.6" +:+ CRLF;
               "Date: " +:+ Ex.date +:+ CRLF; "Connection: close" +:+ CRLF].
Proof.
  split.
  - rewrite (proj1 (keep_alive_connection_header Ex.date
               (Ex.response KeepAliveResponseClass false false)
               (Ex.serving KeepAliveResponseClass) (Ex.get_request []) eq_refl)).
    reflexivity.
  - rewrite (proj1 (keep_alive_connection_header Ex.date
               (Ex.response KeepAliveResponseClass false false)
               (Session.set_req (Some Ex.closing_request)
                  (Ex.serving KeepAliveResponseClass))
               Ex.closing_request eq_refl)).
    reflexivity.
Defined.

(** C10: whatever the status, the retained headers and the session, the
    fourth line of the base variant's default header block is
    [Connection: close], and a response of the base class gets that
    block from [self.default_headers()], whatever the parsed request
    says about closing. *)
Theorem base_connection_close date version status chunked headers headers_sent self :
  let r := {| ResponseState.cls := BaseResponse; ResponseState.version := version;
              ResponseState.status := status; ResponseState.chunked := chunked;
              ResponseState.headers := headers;
              ResponseState.headers_sent := headers_sent |} in
  Response.default_headers date r !! 3%nat = Some ("Connection: close" +:+ CRLF)
  /\ ("Connection: close" +:+ CRLF) ∈ Response.default_headers date r
  /\ Response.self_default_headers date (r, self)
     = (Return (Response.default_headers date r), (r, self)).
Proof.
  intros r. split; [reflexivity|]. split; [|reflexivity].
  unfold Response.default_headers. do 3 apply list_elem_of_further.
  apply list_elem_of_here.
Qed.

(** ** Request.start_response *)

(** The constructor raises its own assertion or the [AttributeError] of
    a value without [lower], never an error handed to [start_response]. *)
Lemma init_headers_raises hs : forall chunked acc x,
  Response.init_headers hs chunked acc = Raise x ->
  (exists name, x = assert_failure NotAString name)
  \/ (exists value, x = AttributeError value "lower").
Proof.
  induction hs as [|[name value] rest IH]; intros chunked acc x; simpl.
  - discriminate.
  - destruct name as [name|n| |items shown];
      [| intros [= <-]; left; by exists (PyInt n)
       | intros [= <-]; left; by exists PyNone
       | intros [= <-]; left; by exists (PyTuple items shown)].
    destruct (Response.init_header name value chunked) as [[ch [h|]]|e] eqn:E.
    + apply IH.
    + apply IH.
    + intros [= <-]. right. unfold Response.init_header in E.
      destruct value as [v| | |? ?]; simpl in E;
        repeat match type of E with
               | context [if ?b then _ else _] => destruct b
               end; try discriminate; injection E as <-; eauto.
Qed.

Lemma assert_failure_not_reraised message o e :
  assert_failure message o <> Reraised e.
Proof. by destruct o as [| | |[|? [|? ?]] ?]. Qed.

Lemma init_never_reraises c req status hs e :
  Response.init c req status hs <> Raise (Reraised e).
Proof.
  unfold Response.init.
  destruct (Response.init_headers hs false []) as [[ch out]|x] eqn:E; [done|].
  apply init_headers_raises in E as [[name ->] | [value ->]]; [|discriminate].
  intros [= H]. by apply assert_failure_not_reraised in H.
Qed.

(** C4: on a session that already has a response, [start_response]
    without error information raises the [AssertionError] and changes
    nothing; with error information it re-raises that error exactly when
    the response has sent its headers, and otherwise drops the error,
    runs the constructor and, when the constructor returns, installs the
    new response in place of the previous one. *)
Theorem start_response_again status hs self r :
  Session.response self = Some r ->
  Request.start_response status hs None self
  = (Raise (AssertionError HeadersAlreadySet), self)
  /\ forall e,
       (fst (Request.start_response status hs (Some e) self) = Raise (Reraised e)
        <-> ResponseState.headers_sent r = true)
       /\ (ResponseState.headers_sent r = true ->
           Request.start_response status hs (Some e) self = (Raise (Reraised e), self))
       /\ (ResponseState.headers_sent r = false ->
           Request.start_response status hs (Some e) self
           = match Response.init (Session.RESPONSE_CLASS self) self status hs with
             | Return r' => (Return tt, Session.set_response (Some r') self)
             | Raise x => (Raise x, self)
             end).
Proof.
  intros Hr. split.
  - unfold Request.start_response, bind, get, raise. simpl. by rewrite Hr.
  - intros e.
    assert (Request.start_response status hs (Some e) self
            = if ResponseState.headers_sent r then (Raise (Reraised e), self)
              else match Response.init (Session.RESPONSE_CLASS self) self status hs with
                   | Return r' => (Return tt, Session.set_response (Some r') self)
                   | Raise x => (Raise x, self)
                   end) as E.
    { unfold Request.start_response, bind, get, raise, ret, lift, put. simpl.
      rewrite Hr. destruct (ResponseState.headers_sent r); [reflexivity|].
      by destruct (Response.init _ _ _ _). }
    rewrite E. destruct (ResponseState.headers_sent r); simpl.
    + repeat split; done.
    + repeat split; try done.
      pose proof (init_never_reraises (Session.RESPONSE_CLASS self) self status hs e).
      destruct (Response.init _ _ _ _) as [r'|x]; simpl; [discriminate|].
      intros [= ->]. done.
Qed.

Lemma start_response_again_witness :
  Request.start_response "500 Internal Server Error"
    [(PyStr "Content-Type", PyStr "text/plain")] (Some Ex.err)
    (Session.set_response (Some (Ex.response BaseResponse false true))
       (Ex.serving BaseResponse))
  = (Raise (Reraised Ex.err),
     Session.set_response (Some (Ex.response BaseResponse false true))
       (Ex.serving BaseResponse))
  /\ Session.response (snd
       (Request.start_response "500 Internal Server Error"
          [(PyStr "Content-Type", PyStr "text/plain")] (Some Ex.err)
          (Session.set_response (Some (Ex.response BaseResponse true false))
             (Ex.serving BaseResponse))))
     = Some {| ResponseState.cls := BaseResponse;
               ResponseState.version := "gunicorn/0.6";
               ResponseState.status := "500 Internal Server Error";
               ResponseState.chunked := false;
               ResponseState.headers := [("Content-Type", "text/plain")];
               ResponseState.headers_sent := false |}.
Proof.
  split.
  - apply (proj2 (start_response_again "500 Internal Server Error"
                    [(PyStr "Content-Type", PyStr "text/plain")]
                    (Session.set_response (Some (Ex.response BaseResponse false true))
                       (Ex.serving BaseResponse))
                    (Ex.response BaseResponse false true) eq_refl) Ex.err).
    reflexivity.
  - destruct (proj2 (start_response_again "500 Internal Server Error"
                    [(PyStr "Content-Type", PyStr "text/plain")]
                    (Session.set_response (Some (Ex.response BaseResponse true false))
                       (Ex.serving BaseResponse))
                    (Ex.response BaseResponse true false) eq_refl) Ex.err)
      as (_ & _ & Hfresh).
    rewrite (Hfresh eq_refl). reflexivity.
Defined.

(** A cycle end to end: the handler starts a response, writes a chunk,
    and starts again with error information; the headers are out, so
    the error comes back. *)
Example start_response_after_write :
  let self1 := snd (Request.start_response "200 OK" [] None (Ex.serving BaseResponse)) in
  let self2 := snd (Request.call_write Ex.date (PyStr "partial") self1) in
  fst (Request.start_response "500 Internal Server Error" [] (Some Ex.err) self1)
  = Return tt
  /\ fst (Request.start_response "500 Internal Server Error" [] (Some Ex.err) self2)
     = Raise (Reraised Ex.err).
Proof. split; reflexivity. Qed.

(** ** KeepAliveRequest.read *)

(** C8: when the base [read] raises a socket error, the keep-alive
    [read] returns the end-of-stream value [None] if the error code is
    [ECONNRESET], and raises the same error, from the same state, for
    any other code. *)
Theorem keep_alive_read_absorbs_reset self errno self' :
  Request.read self = (Raise (SocketError errno), self') ->
  KeepAliveRequest.read self
  = (if errno =? ECONNRESET then Return None else Raise (SocketError errno), self').
Proof.
  intros E. unfold KeepAliveRequest.read, try_except, bind. rewrite E.
  by destruct (errno =? ECONNRESET).
Qed.

Lemma keep_alive_read_absorbs_reset_witness :
  KeepAliveRequest.read
    (Ex.session KeepAliveResponseClass Ex.sock Ex.client [Raise (SocketError 104)])
  = (Return None, Ex.session KeepAliveResponseClass Ex.sock Ex.client [])
  /\ fst (KeepAliveRequest.read
            (Ex.session KeepAliveResponseClass (Ex.broken 32) Ex.client
               [Return (Ex.get_request [("Expect", "100-continue")])]))
     = Raise (SocketError 32).
Proof.
  split.
  - apply (keep_alive_read_absorbs_reset
             (Ex.session KeepAliveResponseClass Ex.sock Ex.client [Raise (SocketError 104)])
             104 (Ex.session KeepAliveResponseClass Ex.sock Ex.client [])).
    reflexivity.
  - rewrite (keep_alive_read_absorbs_reset
               (Ex.session KeepAliveResponseClass (Ex.broken 32) Ex.client
                  [Return (Ex.get_request [("Expect", "100-continue")])])
               32 _ eq_refl).
    reflexivity.
Defined.

(** Errors that are not socket errors pass through the keep-alive
    [read] as they are. *)
Lemma keep_alive_read_other_errors self x self' :
  Request.read self = (Raise x, self') ->
  (forall errno, x <> SocketError errno) ->
  KeepAliveRequest.read self = (Raise x, self').
Proof.
  intros E Hx. unfold KeepAliveRequest.read, try_except, bind. rewrite E.
  destruct x; try reflexivity. by destruct (Hx errno).
Qed.

Lemma keep_alive_read_returns self environ self' :
  Request.read self = (Return environ, self') ->
  KeepAliveRequest.read self = (Return (Some environ), self').
Proof.
  intros E. unfold KeepAliveRequest.read, try_except, bind. by rewrite E.
Qed.

(** ** Request.read: addresses *)

Lemma append_cons c (s t : string) : String c s +:+ t = String c (s +:+ t).
Proof. reflexivity. Qed.

Lemma split_single sep s :
  PyStr.contains sep s = false -> PyStr.split sep s = [s].
Proof.
  induction s as [|c s IH]; simpl; [done|].
  destruct (Ascii.eqb c sep); simpl; [done|]. intros H. by rewrite IH.
Qed.

Lemma split_several sep s :
  PyStr.contains sep s = true ->
  exists host port more, PyStr.split sep s = host :: port :: more.
Proof.
  induction s as [|c s IH]; simpl; [done|].
  destruct (Ascii.eqb c sep); simpl.
  - intros _. destruct s as [|c' s']; [by exists "", "", []|].
    destruct (PyStr.split sep (String c' s')) as [|t ts] eqn:E; [|by eauto].
    simpl in E. destruct (Ascii.eqb c' sep); [done|].
    by destruct (PyStr.split sep s').
  - intros H. destruct (IH H) as (h & p & more & ->). eauto.
Qed.

Lemma split_no_sep sep s :
  Forall (fun tok => PyStr.contains sep tok = false) (PyStr.split sep s).
Proof.
  induction s as [|c s IH]; simpl.
  - by repeat constructor.
  - destruct (Ascii.eqb c sep) eqn:Ec; [by constructor|].
    destruct (PyStr.split sep s) as [|t ts]; [by repeat constructor; simpl; rewrite Ec|].
    apply Forall_cons in IH as [Ht Hts]. constructor; [|done].
    simpl. by rewrite Ec.
Qed.

Lemma split_join sep s : join_sep sep (PyStr.split sep s) = s.
Proof.
  induction s as [|c s IH]; simpl; [done|].
  destruct (Ascii.eqb c sep) eqn:Ec.
  - apply Ascii.eqb_eq in Ec as ->.
    destruct (PyStr.split sep s) as [|t ts] eqn:E.
    + destruct s; simpl in E; [done|].
      destruct (Ascii.eqb _ _); [done|]. by destruct (PyStr.split sep s).
    + cbn [join_sep]. cbn [join_sep] in IH. by rewrite <- IH.
  - destruct (PyStr.split sep s) as [|t [|t' ts]] eqn:E.
    + destruct s; simpl in E; [done|].
      destruct (Ascii.eqb _ _); [done|]. by destruct (PyStr.split sep s).
    + simpl in *. by rewrite IH.
    + cbn [join_sep] in *. by rewrite append_cons, IH.
Qed.

(** The first two items of a split address are always there. *)
Lemma split_colon_items s :
  exists host port more,
    Request.split_colon s = PyStr host :: PyStr port :: (PyStr <$> more)
    /\ PyStr.split ":" s
       = (if PyStr.contains ":" s then host :: port :: more else [host])
    /\ (PyStr.contains ":" s = false -> port = "" /\ more = []).
Proof.
  unfold Request.split_colon.
  destruct (PyStr.contains ":" s) eqn:Ec.
  - destruct (split_several ":" s Ec) as (h & p & more & ->).
    exists h, p, more. by simpl.
  - rewrite (split_single ":" s Ec). by exists s, "", [].
Qed.

(** The key of a header in the request context is never one of the keys
    the context has from the start. *)
Lemma add_headers_lookup hs : forall (environ : gmap string value) key,
  (forall k, key <> Request.http_key k) ->
  Request.add_headers hs environ !! key = environ !! key.
Proof.
  induction hs as [|[k v] rest IH]; intros environ key Hkey; simpl; [done|].
  destruct (bool_decide _); rewrite IH by done; [done|].
  apply lookup_insert_ne. intros E. by apply (Hkey k).
Qed.

Lemma forwarded_for_absent hs : forall a,
  has_header "x-forwarded-for" hs = false -> forwarded_for hs a = a.
Proof.
  induction hs as [|h rest IH]; intros a; simpl; [done|].
  intros H. apply orb_false_iff in H as [-> H]. by apply IH.
Qed.

(** On a healthy socket the loop over the headers returns; it only
    appends to the wire, and it leaves in [forward_address] the value of
    the last [X-Forwarded-For] header, if there is one. *)
Lemma scan_headers_healthy hs : forall l self,
  fault (Session.socket self) = None ->
  exists l' data,
    Request.scan_headers hs l self = (Return l', sent data self)
    /\ Request.forward_address l' = forwarded_for hs (Request.forward_address l).
Proof.
  induction hs as [|[name v] rest IH]; intros l self Hf.
  - exists l, []. by rewrite sent_nil.
  - cbn [Request.scan_headers forwarded_for fold_left]. unfold bind.
    assert (exists l1 data1,
              Request.scan_header l (name, v) self = (Return l1, sent data1 self)
              /\ Request.forward_address l1
                 = if String.eqb (PyStr.lower name) "x-forwarded-for"
                   then AddrStr v else Request.forward_address l)
      as (l1 & data1 & -> & Hl1).
    { unfold Request.scan_header, bind, ret. cbn [fst snd].
      destruct (String.eqb (PyStr.lower name) "expect") eqn:Ee.
      - apply String.eqb_eq in Ee. rewrite Ee.
        destruct (String.eqb (PyStr.lower v) "100-continue").
        + exists l, ["HTTP/1.1 100 Continue" +:+ CRLF +:+ CRLF].
          unfold Session.on_socket, zoom, send. by rewrite Hf.
        + exists l, []. by rewrite sent_nil.
      - destruct (String.eqb (PyStr.lower name) "x-forwarded-for");
          [eexists _, []; by rewrite sent_nil|].
        repeat match goal with
               | |- context [if ?b then _ else _] => destruct b
               end; eexists _, []; by rewrite sent_nil. }
    destruct (IH l1 (sent data1 self) (sent_healthy _ _)) as (l' & data & -> & Hl').
    exists l', (data1 ++ data). rewrite sent_sent. split; [done|].
    cbn [fst snd]. by rewrite Hl', Hl1.
Qed.

Lemma remote_keys_not_http k :
  "REMOTE_ADDR" <> Request.http_key k /\ "REMOTE_PORT" <> Request.http_key k.
Proof. unfold Request.http_key. split; intros E; discriminate E. Qed.

(** What [read] puts under [REMOTE_ADDR] and [REMOTE_PORT] when the
    forwarded address is a string: the first two items of its split at
    colons. [read] returns when the parser hands over a request, the
    socket is healthy and there is a server address. *)
Lemma read_remote_addr self req rest s host port more :
  Session.parser self = Return req :: rest ->
  fault (Session.socket self) = None ->
  Session.server_address self <> AddrNone ->
  forwarded_for (ParsedRequest.headers req)
    (Request.or_localhost (Session.client_address self)) = AddrStr s ->
  Request.split_colon s = PyStr host :: PyStr port :: more ->
  exists environ self',
    Request.read self = (Return environ, self')
    /\ environ !! "REMOTE_ADDR" = Some (VStr host)
    /\ environ !! "REMOTE_PORT" = Some (VStr port).
Proof.
  intros Hp Hf Hsrv Hfw Hs.
  unfold Request.read, bind, Request.parser_next, get, put. rewrite Hp.
  cbn [fst snd].
  set (self1 := Session.set_req (Some req) (Session.set_parser rest self)).
  assert (fault (Session.socket self1) = None) as Hf1 by exact Hf.
  change (Session.client_address (Session.set_parser rest self))
    with (Session.client_address self).
  match goal with
  | |- context [Request.scan_headers ?hs ?l self1] =>
      destruct (scan_headers_healthy hs l self1 Hf1) as (l' & data & -> & Hfa)
  end.
  rewrite Hfa. cbn [Request.forward_address]. rewrite Hfw.
  cbn [Request.remote_addr].
  rewrite Hs. unfold lift. cbn [Request.getitem lookup list_lookup].
  change (Session.server_address (Session.set_parser rest self))
    with (Session.server_address self).
  assert (exists a b c, Request.server_addr (Session.server_address self)
                        = Some (a :: b :: c)) as (a & b & c & ->).
  { destruct (Session.server_address self) as [t|h p|]; [| |done].
    - destruct (split_colon_items t) as (h & p & m & E & _).
      cbn [Request.server_addr]. rewrite E. eauto.
    - simpl. eauto. }
  cbn [Request.getitem lookup list_lookup]. unfold ret.
  eexists _, _. split; [reflexivity|].
  split; rewrite add_headers_lookup by (intros k; apply remote_keys_not_http);
    by simplify_map_eq.
Qed.

(** On an address with one colon the split on the last colon and the
    code's split agree. *)
Example split_last_colon_host_port :
  split_last_colon "192.168.1.5:54321" = ("192.168.1.5", "54321")
  /\ split_last_colon "localhost" = ("localhost", "").
Proof. split; reflexivity. Qed.

(** C9, as the claim states it, fails: the client address [[::1]:8000]
    split on its last colon has host [[::1]] and port [8000]; [read]
    splits on every colon and takes the first two items, [[] and the
    empty string. *)
Lemma address_not_split_on_last_colon :
  ~ (forall environ self',
       Request.read (Ex.session BaseResponse Ex.sock (AddrStr "[::1]:8000")
                       [Return (Ex.get_request [])])
       = (Return environ, self') ->
       environ !! "REMOTE_ADDR" = Some (VStr (fst (split_last_colon "[::1]:8000")))
       /\ environ !! "REMOTE_PORT" = Some (VStr (snd (split_last_colon "[::1]:8000")))).
Proof.
  intros H.
  destruct (read_remote_addr
              (Ex.session BaseResponse Ex.sock (AddrStr "[::1]:8000")
                 [Return (Ex.get_request [])])
              (Ex.get_request []) [] "[::1]:8000" "[" "" [PyStr "1]"; PyStr "8000"]
              eq_refl eq_refl ltac:(discriminate) eq_refl eq_refl)
    as (environ & self' & E & Ha & _).
  destruct (H environ self' E) as [Ha' _].
  rewrite Ha in Ha'. discriminate Ha'.
Qed.

(** C9, amended: a string address is split on every colon, never
    raising: the items have no colon and joined with colons give the
    address back; the host is the first item, the text before the first
    colon, and the port the second, the text between the first and the
    second colon, or the empty string when the address has no colon.
    [read] on a healthy socket, with a server address and without an
    [X-Forwarded-For] header, returns a context whose [REMOTE_ADDR] and
    [REMOTE_PORT] are the host and port of the client address. *)
Theorem address_split_on_colons s self req rest :
  Session.parser self = Return req :: rest ->
  fault (Session.socket self) = None ->
  Session.server_address self <> AddrNone ->
  Session.client_address self = AddrStr s ->
  s <> "" ->
  has_header "x-forwarded-for" (ParsedRequest.headers req) = false ->
  exists host port more,
    PyStr.split ":" s = (if PyStr.contains ":" s then host :: port :: more else [host])
    /\ (PyStr.contains ":" s = false -> port = "" /\ more = [])
    /\ Forall (fun item => PyStr.contains ":" item = false) (PyStr.split ":" s)
    /\ join_sep ":" (PyStr.split ":" s) = s
    /\ Request.getitem (Request.remote_addr (AddrStr s)) 0 = Return (PyStr host)
    /\ Request.getitem (Request.remote_addr (AddrStr s)) 1 = Return (PyStr port)
    /\ Request.getitem (Request.server_addr (AddrStr s)) 0 = Return (PyStr host)
    /\ Request.getitem (Request.server_addr (AddrStr s)) 1 = Return (PyStr port)
    /\ exists environ self',
         Request.read self = (Return environ, self')
         /\ environ !! "REMOTE_ADDR" = Some (VStr host)
         /\ environ !! "REMOTE_PORT" = Some (VStr port).
Proof.
  intros Hp Hf Hsrv Hcl Hs Hx.
  destruct (split_colon_items s) as (host & port & more & Hitems & Hsplit & Hone).
  exists host, port, more.
  split; [exact Hsplit|]. split; [exact Hone|].
  split; [apply split_no_sep|]. split; [apply split_join|].
  cbn [Request.remote_addr Request.server_addr]. rewrite Hitems.
  repeat (split; [reflexivity|]).
  apply (read_remote_addr self req rest s host port (PyStr <$> more)); try done.
  rewrite (forwarded_for_absent _ _ Hx), Hcl. destruct s; done.
Qed.

Lemma address_split_on_colons_witness :
  exists environ self',
    Request.read (Ex.session BaseResponse Ex.sock Ex.client
                    [Return (Ex.get_request [("Host", "example.org")])])
    = (Return environ, self')
    /\ environ !! "REMOTE_ADDR" = Some (VStr "192.168.1.5")
    /\ environ !! "REMOTE_PORT" = Some (VStr "54321").
Proof.
  destruct (address_split_on_colons "192.168.1.5:54321"
              (Ex.session BaseResponse Ex.sock Ex.client
                 [Return (Ex.get_request [("Host", "example.org")])])
              (Ex.get_request [("Host", "example.org")]) []
              eq_refl eq_refl ltac:(discriminate) eq_refl ltac:(discriminate) eq_refl)
    as (host & port & more & Hsplit & _ & _ & _ & _ & _ & _ & _ & Hread).
  injection Hsplit as <- <- _. exact Hread.
Defined.

(** ** Request.read: X-Forwarded-For *)

(** C1: the code does not do what the claim says. The comma branch of
    [read] assigns the last token to [forward_adress], a name nothing
    reads, so the header value is split at colons whole: for every
    string the items are those of the full value, and the request with
    [X-Forwarded-For: 10.0.0.1, 10.0.0.2, 203.0.113.5] gets the whole
    value as [REMOTE_ADDR], not the last token [203.0.113.5]. *)
Theorem forwarded_for_last_token_unused :
  (forall s, Request.remote_addr (AddrStr s) = Some (Request.split_colon s))
  /\ PyStr.strip (List.last (PyStr.split "," Ex.forwarded) "") = "203.0.113.5"
  /\ exists environ self',
       Request.read (Ex.session BaseResponse Ex.sock Ex.client
                       [Return (Ex.get_request [("X-Forwarded-For", Ex.forwarded)])])
       = (Return environ, self')
       /\ environ !! "REMOTE_ADDR" = Some (VStr "10.0.0.1, 10.0.0.2, 203.0.113.5")
       /\ environ !! "REMOTE_PORT" = Some (VStr "").
Proof.
  split; [reflexivity|]. split; [reflexivity|].
  apply (read_remote_addr
           (Ex.session BaseResponse Ex.sock Ex.client
              [Return (Ex.get_request [("X-Forwarded-For", Ex.forwarded)])])
           (Ex.get_request [("X-Forwarded-For", Ex.forwarded)]) []
           Ex.forwarded Ex.forwarded "" []); try reflexivity.
  discriminate.
Qed.

(** * Further properties *)

(** ** Request.read: the loop over the headers *)

Ltac name_cases :=
  repeat match goal with
         | |- context [String.eqb ?a ?b] =>
             destruct (String.eqb_spec a b) as [->|]; simpl
         end;
  repeat match goal with
         | |- context [if ?b then _ else _] => destruct b
         end.

Lemma set_socket_same self : Session.set_socket (Session.socket self) self = self.
Proof. by destruct self. Qed.

Lemma scan_header_spec l h self :
  Request.scan_header l h self
  = if asks_continue h
    then match fault (Session.socket self) with
         | Some errno => (Raise (SocketError errno), self)
         | None => (Return (scan_step l h), sent [continue_line] self)
         end
    else (Return (scan_step l h), self).
Proof.
  unfold Request.scan_header, scan_step, asks_continue, bind, ret.
  destruct (String.eqb (PyStr.lower (fst h)) "expect") eqn:Ee; cbn [andb].
  - destruct (String.eqb (PyStr.lower (snd h)) "100-continue"); [|reflexivity].
    unfold Session.on_socket, zoom, send, continue_line.
    destruct (fault (Session.socket self)); [|reflexivity].
    by rewrite set_socket_same.
  - repeat match goal with
           | |- context [if ?b then _ else _] => destruct b
           end; reflexivity.
Qed.

Lemma continues_cons h rest :
  continues (h :: rest)
  = (if asks_continue h then [continue_line] else []) ++ continues rest.
Proof. reflexivity. Qed.

Lemma scan_headers_healthy_spec hs : forall l self,
  fault (Session.socket self) = None ->
  Request.scan_headers hs l self
  = (Return (scan_locals hs l), after_sends (continues hs) self).
Proof.
  induction hs as [|h rest IH]; intros l self Hf; [reflexivity|].
  cbn [Request.scan_headers scan_locals fold_left]. unfold bind.
  rewrite continues_cons, scan_header_spec, Hf.
  destruct (asks_continue h).
  - rewrite IH by apply sent_healthy. unfold scan_locals. f_equal.
    cbn [app after_sends]. destruct (continues rest); [reflexivity|].
    cbn [after_sends]. by rewrite sent_sent.
  - by rewrite IH.
Qed.

Lemma scan_headers_silent hs : forall l self,
  continues hs = [] ->
  Request.scan_headers hs l self = (Return (scan_locals hs l), self).
Proof.
  induction hs as [|h rest IH]; intros l self Hc; [reflexivity|].
  cbn [Request.scan_headers scan_locals fold_left]. unfold bind.
  rewrite continues_cons in Hc. rewrite scan_header_spec.
  destruct (asks_continue h); [discriminate Hc|]. by rewrite IH.
Qed.

Lemma scan_headers_broken hs : forall l self errno,
  fault (Session.socket self) = Some errno ->
  continues hs <> [] ->
  Request.scan_headers hs l self = (Raise (SocketError errno), self).
Proof.
  induction hs as [|h rest IH]; intros l self errno Hf Hc; [done|].
  cbn [Request.scan_headers]. unfold bind.
  rewrite continues_cons in Hc. rewrite scan_header_spec, Hf.
  destruct (asks_continue h); [reflexivity|]. by rewrite (IH _ _ errno).
Qed.

Lemma scan_locals_forward_address hs : forall l,
  Request.forward_address (scan_locals hs l)
  = forwarded_for hs (Request.forward_address l).
Proof.
  induction hs as [|h rest IH]; intros l; [reflexivity|].
  cbn [scan_locals forwarded_for fold_left].
  change (fold_left scan_step rest (scan_step l h))
    with (scan_locals rest (scan_step l h)).
  rewrite IH. unfold forwarded_for. f_equal.
  unfold scan_step. by name_cases.
Qed.

Lemma scan_locals_script_name hs : forall l,
  Request.script_name (scan_locals hs l)
  = last_value "script_name" hs (Request.script_name l).
Proof.
  induction hs as [|h rest IH]; intros l; [reflexivity|].
  cbn [scan_locals last_value fold_left].
  change (fold_left scan_step rest (scan_step l h))
    with (scan_locals rest (scan_step l h)).
  rewrite IH. unfold last_value. f_equal.
  unfold scan_step. by name_cases.
Qed.

Lemma scan_locals_content_type hs : forall l,
  Request.content_type (scan_locals hs l)
  = last_value "content-type" hs (Request.content_type l).
Proof.
  induction hs as [|h rest IH]; intros l; [reflexivity|].
  cbn [scan_locals last_value fold_left].
  change (fold_left scan_step rest (scan_step l h))
    with (scan_locals rest (scan_step l h)).
  rewrite IH. unfold last_value. f_equal.
  unfold scan_step. by name_cases.
Qed.

Lemma scan_locals_content_length hs : forall l,
  Request.content_length (scan_locals hs l)
  = last_value "content-length" hs (Request.content_length l).
Proof.
  induction hs as [|h rest IH]; intros l; [reflexivity|].
  cbn [scan_locals last_value fold_left].
  change (fold_left scan_step rest (scan_step l h))
    with (scan_locals rest (scan_step l h)).
  rewrite IH. unfold last_value. f_equal.
  unfold scan_step. by name_cases.
Qed.

(** The forwarded address is the client address or a header value,
    never [None] unless the client address is. *)
Lemma forwarded_for_cases hs : forall a,
  forwarded_for hs a = a \/ exists s, forwarded_for hs a = AddrStr s.
Proof.
  induction hs as [|h rest IH]; intros a; [by left|].
  cbn [forwarded_for fold_left].
  destruct (String.eqb (PyStr.lower (fst h)) "x-forwarded-for").
  - right. destruct (IH (AddrStr (snd h))) as [E | [s E]]; eauto.
  - apply IH.
Qed.

Lemma remote_addr_items hs a :
  exists r0 r1 more,
    Request.remote_addr (forwarded_for hs (Request.or_localhost a))
    = Some (r0 :: r1 :: more).
Proof.
  assert (forall s, exists r0 r1 more,
            Request.remote_addr (AddrStr s) = Some (r0 :: r1 :: more)) as Hstr.
  { intros s. destruct (split_colon_items s) as (h & p & m & E & _).
    cbn [Request.remote_addr]. rewrite E. eauto. }
  destruct (forwarded_for_cases hs (Request.or_localhost a)) as [-> | [s ->]];
    [|apply Hstr].
  destruct a as [s|h p|]; cbn [Request.or_localhost].
  - destruct (PyStr.is_empty s); apply Hstr.
  - simpl. eauto.
  - apply Hstr.
Qed.

Lemma server_addr_items a :
  a <> AddrNone ->
  exists s0 s1 more, Request.server_addr a = Some (s0 :: s1 :: more).
Proof.
  destruct a as [t|h p|]; [| |done]; intros _.
  - destruct (split_colon_items t) as (h & p & m & E & _).
    cbn [Request.server_addr]. rewrite E. eauto.
  - simpl. eauto.
Qed.

(** What [read] returns and leaves behind, whenever the parser hands
    over a request, there is a server address, and the socket is healthy
    or not needed. *)
Lemma read_returns self req rest :
  Session.parser self = Return req :: rest ->
  Session.server_address self <> AddrNone ->
  fault (Session.socket self) = None \/ continues (ParsedRequest.headers req) = [] ->
  exists r0 r1 rmore s0 s1 smore,
    Request.remote_addr
      (forwarded_for (ParsedRequest.headers req)
         (Request.or_localhost (Session.client_address self)))
    = Some (r0 :: r1 :: rmore)
    /\ Request.server_addr (Session.server_address self) = Some (s0 :: s1 :: smore)
    /\ Request.read self
       = (Return (Request.add_headers (ParsedRequest.headers req)
                    (context_of self req
                       (scan_locals (ParsedRequest.headers req) (initial_locals self))
                       r0 r1 s0 s1)),
          after_sends (continues (ParsedRequest.headers req))
            (Session.set_req (Some req) (Session.set_parser rest self))).
Proof.
  intros Hp Hsrv Hsock.
  destruct (remote_addr_items (ParsedRequest.headers req) (Session.client_address self))
    as (r0 & r1 & rmore & Hr).
  destruct (server_addr_items _ Hsrv) as (s0 & s1 & smore & Hs).
  exists r0, r1, rmore, s0, s1, smore. split; [exact Hr|]. split; [exact Hs|].
  unfold Request.read, bind, Request.parser_next, get, put. rewrite Hp.
  cbn [fst snd].
  set (self1 := Session.set_req (Some req) (Session.set_parser rest self)).
  change (Session.client_address (Session.set_parser rest self))
    with (Session.client_address self).
  change (Session.os_SCRIPT_NAME (Session.set_parser rest self))
    with (Session.os_SCRIPT_NAME self).
  fold (initial_locals self).
  assert (Request.scan_headers (ParsedRequest.headers req) (initial_locals self) self1
          = (Return (scan_locals (ParsedRequest.headers req) (initial_locals self)),
             after_sends (continues (ParsedRequest.headers req)) self1)) as ->.
  { destruct Hsock as [Hf | Hc].
    - by apply scan_headers_healthy_spec.
    - rewrite Hc. by apply scan_headers_silent. }
  rewrite scan_locals_forward_address. cbn [initial_locals Request.forward_address].
  rewrite Hr.
  change (Session.server_address (Session.set_parser rest self))
    with (Session.server_address self).
  rewrite Hs. reflexivity.
Qed.

(** ** Request.read: the request context *)

Lemma fixed_key_not_http key k : key ∈ fixed_keys -> key <> Request.http_key k.
Proof.
  unfold fixed_keys, Request.http_key. intros H.
  repeat (apply elem_of_cons in H as [-> | H]; [intros E; discriminate E|]).
  by apply elem_of_nil in H.
Qed.

Lemma context_of_keys self req l r0 r1 s0 s1 key :
  is_Some (context_of self req l r0 r1 s0 s1 !! key) <-> key ∈ fixed_keys.
Proof.
  unfold context_of, fixed_keys. split.
  - intros [v H].
    repeat (apply lookup_insert_Some in H as [[<- _] | [_ H]];
            [set_solver|]).
    by rewrite lookup_empty in H.
  - intros H.
    repeat (apply elem_of_cons in H as [-> | H]; [by simplify_map_eq|]).
    by apply elem_of_nil in H.
Qed.

Lemma add_headers_app hs1 : forall hs2 (environ : gmap string value),
  Request.add_headers (hs1 ++ hs2) environ
  = Request.add_headers hs2 (Request.add_headers hs1 environ).
Proof.
  induction hs1 as [|[k v] rest IH]; intros hs2 environ; simpl; [done|].
  destruct (bool_decide _); by rewrite IH.
Qed.

Lemma add_headers_lookup_ne hs : forall (environ : gmap string value) key,
  Forall (fun h => Request.http_key (fst h) <> key) hs ->
  Request.add_headers hs environ !! key = environ !! key.
Proof.
  induction hs as [|[k v] rest IH]; intros environ key Hall; simpl; [done|].
  apply Forall_cons in Hall as [Hk Hall]. simpl in Hk.
  destruct (bool_decide _); rewrite IH by done; [done|].
  by apply lookup_insert_ne.
Qed.

Lemma add_headers_skipped hs : forall (environ : gmap string value) key,
  skipped_key key = true ->
  Request.add_headers hs environ !! key = environ !! key.
Proof.
  induction hs as [|[k v] rest IH]; intros environ key Hs; simpl; [done|].
  destruct (bool_decide (Request.http_key k ∈ _)) eqn:E; rewrite IH by done; [done|].
  apply lookup_insert_ne. intros <-. unfold skipped_key in Hs. congruence.
Qed.

Lemma add_headers_keys hs : forall (environ : gmap string value) key,
  is_Some (Request.add_headers hs environ !! key) ->
  is_Some (environ !! key)
  \/ exists h, h ∈ hs /\ key = Request.http_key (fst h) /\ skipped_key key = false.
Proof.
  induction hs as [|[k v] rest IH]; intros environ key H; simpl in H; [by left|].
  destruct (bool_decide (Request.http_key k ∈ _)) eqn:E.
  - destruct (IH _ _ H) as [?|(h & Hin & ? & ?)]; [by left|].
    right. exists h. split; [by apply list_elem_of_further | done].
  - destruct (IH _ _ H) as [Hl|(h & Hin & ? & ?)].
    + destruct (decide (Request.http_key k = key)) as [<-|Hne].
      * right. exists (k, v). split; [apply list_elem_of_here | done].
      * left. by rewrite lookup_insert_ne in Hl.
    + right. exists h. split; [by apply list_elem_of_further | done].
Qed.

(** Under the conditions of [read_returns], the context has, under
    every key of the dictionary display, what the display put there. *)
Lemma read_fixed self req rest :
  Session.parser self = Return req :: rest ->
  Session.server_address self <> AddrNone ->
  fault (Session.socket self) = None \/ continues (ParsedRequest.headers req) = [] ->
  exists environ r0 r1 rmore s0 s1 smore,
    Request.remote_addr
      (forwarded_for (ParsedRequest.headers req)
         (Request.or_localhost (Session.client_address self)))
    = Some (r0 :: r1 :: rmore)
    /\ Request.server_addr (Session.server_address self) = Some (s0 :: s1 :: smore)
    /\ Request.read self
       = (Return environ,
          after_sends (continues (ParsedRequest.headers req))
            (Session.set_req (Some req) (Session.set_parser rest self)))
    /\ environ
       = Request.add_headers (ParsedRequest.headers req)
           (context_of self req
              (scan_locals (ParsedRequest.headers req) (initial_locals self))
              r0 r1 s0 s1)
    /\ forall key, key ∈ fixed_keys ->
         environ !! key
         = context_of self req
             (scan_locals (ParsedRequest.headers req) (initial_locals self))
             r0 r1 s0 s1 !! key.
Proof.
  intros Hp Hsrv Hsock.
  destruct (read_returns self req rest Hp Hsrv Hsock)
    as (r0 & r1 & rmore & s0 & s1 & smore & Hr & Hs & Hread).
  eexists _, r0, r1, rmore, s0, s1, smore.
  split; [exact Hr|]. split; [exact Hs|]. split; [exact Hread|].
  split; [reflexivity|].
  intros key Hkey. apply add_headers_lookup. intros k. by apply fixed_key_not_http.
Qed.

Ltac fixed_key :=
  unfold fixed_keys;
  repeat first [apply list_elem_of_here | apply list_elem_of_further].

Lemma after_sends_wire data self :
  wire (Session.socket (after_sends data self)) = wire (Session.socket self) ++ data.
Proof. destruct data; [by rewrite app_nil_r | reflexivity]. Qed.

Lemma after_sends_fields data self :
  Session.req (after_sends data self) = Session.req self
  /\ Session.parser (after_sends data self) = Session.parser self
  /\ Session.response (after_sends data self) = Session.response self
  /\ Session.RESPONSE_CLASS (after_sends data self) = Session.RESPONSE_CLASS self
  /\ Session.SERVER_VERSION (after_sends data self) = Session.SERVER_VERSION self.
Proof. by destruct data. Qed.

(** X1: on a healthy socket [read] returns whenever the parser hands
    over a request and there is a server address; all it sends is one
    [100 Continue] line for each [Expect: 100-continue] header, in
    order; it takes one record from the parser, stores it in [self.req]
    and leaves [self.response] alone. *)
Theorem read_sends_only_interim_responses self req rest :
  Session.parser self = Return req :: rest ->
  Session.server_address self <> AddrNone ->
  fault (Session.socket self) = None ->
  exists environ self',
    Request.read self = (Return environ, self')
    /\ wire (Session.socket self')
       = wire (Session.socket self) ++ continues (ParsedRequest.headers req)
    /\ Session.req self' = Some req
    /\ Session.parser self' = rest
    /\ Session.response self' = Session.response self.
Proof.
  intros Hp Hsrv Hf.
  destruct (read_fixed self req rest Hp Hsrv (or_introl Hf))
    as (environ & r0 & r1 & rmore & s0 & s1 & smore & _ & _ & Hread & _).
  eexists _, _. split; [exact Hread|].
  rewrite after_sends_wire.
  destruct (after_sends_fields (continues (ParsedRequest.headers req))
              (Session.set_req (Some req) (Session.set_parser rest self)))
    as (-> & -> & -> & _).
  done.
Qed.

Lemma read_sends_only_interim_responses_witness :
  exists environ self',
    Request.read
      (Request__init__ BaseResponse "gunicorn/0.6" "" Ex.sock Ex.client
         (AddrStr "localhost:8000") false
         [Return (Ex.get_request [("Expect", "100-Continue"); ("Host", "a");
                                  ("expect", "100-continue")])])
    = (Return environ, self')
    /\ wire (Session.socket self') = [continue_line; continue_line]
    /\ Session.req self'
       = Some (Ex.get_request [("Expect", "100-Continue"); ("Host", "a");
                               ("expect", "100-continue")])
    /\ Session.parser self' = []
    /\ Session.response self' = None.
Proof.
  apply (read_sends_only_interim_responses
           (Request__init__ BaseResponse "gunicorn/0.6" "" Ex.sock Ex.client
              (AddrStr "localhost:8000") false
              [Return (Ex.get_request [("Expect", "100-Continue"); ("Host", "a");
                                       ("expect", "100-continue")])])
           _ [] eq_refl ltac:(discriminate) eq_refl).
Defined.

(** X2: on a broken socket [read] raises the socket's error exactly
    when the request has an [Expect: 100-continue] header, after it has
    taken the record from the parser and stored it in [self.req];
    without such a header it does not touch the socket and returns. *)
Theorem read_on_broken_socket self req rest errno :
  Session.parser self = Return req :: rest ->
  fault (Session.socket self) = Some errno ->
  (continues (ParsedRequest.headers req) <> [] ->
   Request.read self
   = (Raise (SocketError errno),
      Session.set_req (Some req) (Session.set_parser rest self)))
  /\ (continues (ParsedRequest.headers req) = [] ->
      Session.server_address self <> AddrNone ->
      exists environ,
        Request.read self
        = (Return environ, Session.set_req (Some req) (Session.set_parser rest self))).
Proof.
  intros Hp Hf. split.
  - intros Hc. unfold Request.read, bind, Request.parser_next, get, put.
    rewrite Hp. cbn [fst snd].
    by rewrite (scan_headers_broken _ _
                  (Session.set_req (Some req) (Session.set_parser rest self))
                  errno Hf Hc).
  - intros Hc Hsrv.
    destruct (read_fixed self req rest Hp Hsrv (or_intror Hc))
      as (environ & r0 & r1 & rmore & s0 & s1 & smore & _ & _ & Hread & _).
    rewrite Hc in Hread. by exists environ.
Qed.

Lemma read_on_broken_socket_witness :
  Request.read
    (Request__init__ BaseResponse "gunicorn/0.6" "" (Ex.broken 32) Ex.client
       (AddrPair "0.0.0.0" 8000) false
       [Return (Ex.get_request [("Host", "a"); ("Expect", "100-continue")])])
  = (Raise (SocketError 32),
     Session.set_req
       (Some (Ex.get_request [("Host", "a"); ("Expect", "100-continue")]))
       (Request__init__ BaseResponse "gunicorn/0.6" "" (Ex.broken 32) Ex.client
          (AddrPair "0.0.0.0" 8000) false []))
  /\ exists environ,
       Request.read
         (Request__init__ BaseResponse "gunicorn/0.6" "" (Ex.broken 32) Ex.client
            (AddrPair "0.0.0.0" 8000) false
            [Return (Ex.get_request [("Host", "a")])])
       = (Return environ,
          Session.set_req (Some (Ex.get_request [("Host", "a")]))
            (Request__init__ BaseResponse "gunicorn/0.6" "" (Ex.broken 32) Ex.client
               (AddrPair "0.0.0.0" 8000) false [])).
Proof.
  split.
  - apply (proj1 (read_on_broken_socket
             (Request__init__ BaseResponse "gunicorn/0.6" "" (Ex.broken 32) Ex.client
                (AddrPair "0.0.0.0" 8000) false
                [Return (Ex.get_request [("Host", "a"); ("Expect", "100-continue")])])
             _ [] 32 eq_refl eq_refl)).
    discriminate.
  - apply (proj2 (read_on_broken_socket
             (Request__init__ BaseResponse "gunicorn/0.6" "" (Ex.broken 32) Ex.client
                (AddrPair "0.0.0.0" 8000) false
                [Return (Ex.get_request [("Host", "a")])])
             _ [] 32 eq_refl eq_refl)); [reflexivity | discriminate].
Defined.

(** X3: without a server address ([None]) [read] raises a [TypeError]
    at [server_address[0]], after the request has been taken from the
    parser and the interim responses have been sent. *)
Theorem read_without_server_address self req rest :
  Session.parser self = Return req :: rest ->
  Session.server_address self = AddrNone ->
  fault (Session.socket self) = None ->
  Request.read self
  = (Raise (TypeError "'NoneType' object is unsubscriptable"),
     after_sends (continues (ParsedRequest.headers req))
       (Session.set_req (Some req) (Session.set_parser rest self))).
Proof.
  intros Hp Hsrv Hf.
  destruct (remote_addr_items (ParsedRequest.headers req) (Session.client_address self))
    as (r0 & r1 & rmore & Hr).
  unfold Request.read, bind, Request.parser_next, get, put. rewrite Hp.
  cbn [fst snd].
  change (Session.client_address (Session.set_parser rest self))
    with (Session.client_address self).
  change (Session.os_SCRIPT_NAME (Session.set_parser rest self))
    with (Session.os_SCRIPT_NAME self).
  fold (initial_locals self).
  rewrite (scan_headers_healthy_spec _ _
             (Session.set_req (Some req) (Session.set_parser rest self)) Hf).
  rewrite scan_locals_forward_address. cbn [initial_locals Request.forward_address].
  rewrite Hr.
  change (Session.server_address (Session.set_parser rest self))
    with (Session.server_address self).
  rewrite Hsrv. reflexivity.
Qed.

Lemma read_without_server_address_witness :
  fst (Request.read
         (Request__init__ BaseResponse "gunicorn/0.6" "" Ex.sock Ex.client AddrNone
            false [Return (Ex.get_request [])]))
  = Raise (TypeError "'NoneType' object is unsubscriptable").
Proof.
  rewrite (read_without_server_address
             (Request__init__ BaseResponse "gunicorn/0.6" "" Ex.sock Ex.client AddrNone
                false [Return (Ex.get_request [])])
             _ [] eq_refl eq_refl eq_refl).
  reflexivity.
Defined.

(** X4: an exception of [parser.next()] comes out of [read] as it is,
    with nothing sent and [self.req] as before; the keep-alive [read]
    turns it into the end-of-stream value only if it is a socket error
    with code [ECONNRESET]. *)
Theorem read_parser_failure self e rest :
  Session.parser self = Raise e :: rest ->
  Request.read self = (Raise e, Session.set_parser rest self)
  /\ KeepAliveRequest.read self
     = (match e with
        | SocketError errno =>
            if errno =? ECONNRESET then Return None else Raise e
        | _ => Raise e
        end, Session.set_parser rest self).
Proof.
  intros Hp.
  assert (Request.read self = (Raise e, Session.set_parser rest self)) as E.
  { unfold Request.read, bind, Request.parser_next. by rewrite Hp. }
  split; [exact E|].
  unfold KeepAliveRequest.read, try_except, bind. rewrite E.
  destruct e; try reflexivity. by destruct (errno =? ECONNRESET).
Qed.

Lemma read_parser_failure_witness :
  KeepAliveRequest.read
    (Request__init__ KeepAliveResponseClass "gunicorn/0.6" "" Ex.sock Ex.client
       (AddrPair "0.0.0.0" 8000) false [Raise (SocketError 32)])
  = (Raise (SocketError 32),
     Request__init__ KeepAliveResponseClass "gunicorn/0.6" "" Ex.sock Ex.client
       (AddrPair "0.0.0.0" 8000) false []).
Proof.
  apply (proj2 (read_parser_failure
                  (Request__init__ KeepAliveResponseClass "gunicorn/0.6" "" Ex.sock
                     Ex.client (AddrPair "0.0.0.0" 8000) false [Raise (SocketError 32)])
                  (SocketError 32) [] eq_refl)).
Defined.

Lemma add_headers_keeps hs : forall (environ : gmap string value) key,
  is_Some (environ !! key) -> is_Some (Request.add_headers hs environ !! key).
Proof.
  induction hs as [|[k v] rest IH]; intros environ key H; simpl; [done|].
  destruct (bool_decide _); apply IH; [done|].
  destruct (decide (Request.http_key k = key)) as [<-|Hne].
  - rewrite lookup_insert_eq. eauto.
  - by rewrite lookup_insert_ne.
Qed.

Lemma add_headers_present hs : forall (environ : gmap string value) h,
  h ∈ hs ->
  skipped_key (Request.http_key (fst h)) = false ->
  is_Some (Request.add_headers hs environ !! Request.http_key (fst h)).
Proof.
  induction hs as [|[k v] rest IH]; intros environ h Hin Hskip.
  - by apply elem_of_nil in Hin.
  - apply elem_of_cons in Hin as [-> | Hin]; cbn [Request.add_headers].
    + cbn [fst] in *. unfold skipped_key in Hskip. rewrite Hskip.
      apply add_headers_keeps. rewrite lookup_insert_eq. eauto.
    + destruct (bool_decide _); by apply IH.
Qed.

(** X5: the keys of the context [read] returns are exactly the twenty
    keys of the dictionary display and, for each header of the request
    other than those that map to [HTTP_CONTENT_TYPE] and
    [HTTP_CONTENT_LENGTH], its [HTTP_] key; no header key is one of the
    twenty. *)
Theorem read_context_keys self req rest :
  Session.parser self = Return req :: rest ->
  Session.server_address self <> AddrNone ->
  fault (Session.socket self) = None ->
  exists environ self',
    Request.read self = (Return environ, self')
    /\ (forall key,
          is_Some (environ !! key)
          <-> key ∈ fixed_keys
              \/ exists h, h ∈ ParsedRequest.headers req
                           /\ key = Request.http_key (fst h)
                           /\ skipped_key key = false)
    /\ (forall key name, key ∈ fixed_keys -> key <> Request.http_key name).
Proof.
  intros Hp Hsrv Hf.
  destruct (read_fixed self req rest Hp Hsrv (or_introl Hf))
    as (environ & r0 & r1 & rmore & s0 & s1 & smore & _ & _ & Hread & Henv & Hfix).
  exists environ. eexists. split; [exact Hread|]. split.
  - intros key. split.
    + intros Hsome. rewrite Henv in Hsome.
      apply add_headers_keys in Hsome as [Hin | Hh]; [|by right].
      left. by apply context_of_keys in Hin.
    + intros [Hkey | (h & Hin & -> & Hskip)].
      * rewrite (Hfix key Hkey). by apply context_of_keys.
      * rewrite Henv. by apply add_headers_present.
  - intros key name. apply fixed_key_not_http.
Qed.

Lemma read_context_keys_witness :
  exists environ self',
    Request.read (Ex.session BaseResponse Ex.sock Ex.client
                    [Return (Ex.get_request [("Content-Type", "text/plain");
                                             ("X-Tag", "one")])])
    = (Return environ, self')
    /\ is_Some (environ !! "REMOTE_ADDR")
    /\ is_Some (environ !! "HTTP_X_TAG")
    /\ ~ is_Some (environ !! "HTTP_CONTENT_TYPE")
    /\ "REMOTE_ADDR" <> Request.http_key "Remote-Addr".
Proof.
  destruct (read_context_keys
              (Ex.session BaseResponse Ex.sock Ex.client
                 [Return (Ex.get_request [("Content-Type", "text/plain");
                                          ("X-Tag", "one")])])
              (Ex.get_request [("Content-Type", "text/plain"); ("X-Tag", "one")]) []
              eq_refl ltac:(discriminate) eq_refl)
    as (environ & self' & Hread & Hkeys & Hne).
  exists environ, self'. split; [exact Hread|]. split; [|split; [|split]].
  - apply Hkeys. left. fixed_key.
  - apply Hkeys. right. exists ("X-Tag", "one").
    split; [apply list_elem_of_further, list_elem_of_here|]. by split.
  - intros Hsome. apply Hkeys in Hsome as [Hin | (h & Hin & Hk & Hskip)].
    + unfold fixed_keys in Hin.
      repeat (apply elem_of_cons in Hin as [Hin | Hin]; [discriminate Hin|]).
      by apply elem_of_nil in Hin.
    + discriminate Hskip.
  - apply Hne. fixed_key.
Defined.

(** X6: the entries of the context that describe the request line, the
    body and the server come from the parsed request and the session
    alone; no header changes them, and [wsgi.multiprocess] is the
    negation of the debug flag. *)
Theorem read_request_line self req rest :
  Session.parser self = Return req :: rest ->
  Session.server_address self <> AddrNone ->
  fault (Session.socket self) = None ->
  exists environ self',
    Request.read self = (Return environ, self')
    /\ environ !! "REQUEST_METHOD" = Some (VStr (ParsedRequest.method req))
    /\ environ !! "RAW_URI" = Some (VStr (ParsedRequest.path req))
    /\ environ !! "QUERY_STRING" = Some (VStr (ParsedRequest.query req))
    /\ environ !! "SERVER_PROTOCOL" = Some (VStr (ParsedRequest.version req))
    /\ environ !! "SERVER_SOFTWARE" = Some (VStr (Session.SERVER_VERSION self))
    /\ environ !! "wsgi.input" = Some (VInput (ParsedRequest.body req))
    /\ environ !! "wsgi.url_scheme" = Some (VStr "http")
    /\ environ !! "wsgi.multiprocess" = Some (VBool (negb (Session.debug self))).
Proof.
  intros Hp Hsrv Hf.
  destruct (read_fixed self req rest Hp Hsrv (or_introl Hf))
    as (environ & r0 & r1 & rmore & s0 & s1 & smore & _ & _ & Hread & _ & Hfix).
  exists environ. eexists. split; [exact Hread|].
  repeat split; (rewrite Hfix by fixed_key); unfold context_of; by simplify_map_eq.
Qed.

Lemma read_request_line_witness :
  exists environ self',
    Request.read (Ex.session BaseResponse Ex.sock Ex.client
                    [Return (Ex.get_request [("Request-Method", "DELETE")])])
    = (Return environ, self')
    /\ environ !! "REQUEST_METHOD" = Some (VStr "GET")
    /\ environ !! "wsgi.multiprocess" = Some (VBool true).
Proof.
  destruct (read_request_line
              (Ex.session BaseResponse Ex.sock Ex.client
                 [Return (Ex.get_request [("Request-Method", "DELETE")])])
              (Ex.get_request [("Request-Method", "DELETE")]) []
              eq_refl ltac:(discriminate) eq_refl)
    as (environ & self' & Hread & Hm & _ & _ & _ & _ & _ & _ & Hmp).
  by exists environ, self'.
Defined.

(** X7: [CONTENT_TYPE] and [CONTENT_LENGTH] hold the value of the last
    [Content-Type] and [Content-Length] header, the empty string when
    there is none, and the context has no [HTTP_CONTENT_TYPE] and no
    [HTTP_CONTENT_LENGTH] entry. *)
Theorem read_content_headers self req rest :
  Session.parser self = Return req :: rest ->
  Session.server_address self <> AddrNone ->
  fault (Session.socket self) = None ->
  exists environ self',
    Request.read self = (Return environ, self')
    /\ environ !! "CONTENT_TYPE"
       = Some (VStr (last_value "content-type" (ParsedRequest.headers req) ""))
    /\ environ !! "CONTENT_LENGTH"
       = Some (VStr (last_value "content-length" (ParsedRequest.headers req) ""))
    /\ environ !! "HTTP_CONTENT_TYPE" = None
    /\ environ !! "HTTP_CONTENT_LENGTH" = None.
Proof.
  intros Hp Hsrv Hf.
  destruct (read_fixed self req rest Hp Hsrv (or_introl Hf))
    as (environ & r0 & r1 & rmore & s0 & s1 & smore & _ & _ & Hread & Henv & Hfix).
  exists environ. eexists. split; [exact Hread|].
  split; [|split; [|split]].
  - rewrite Hfix by fixed_key. unfold context_of. simplify_map_eq.
    by rewrite scan_locals_content_type.
  - rewrite Hfix by fixed_key. unfold context_of. simplify_map_eq.
    by rewrite scan_locals_content_length.
  - rewrite Henv, add_headers_skipped by reflexivity.
    unfold context_of. by simplify_map_eq.
  - rewrite Henv, add_headers_skipped by reflexivity.
    unfold context_of. by simplify_map_eq.
Qed.

Lemma read_content_headers_witness :
  exists environ self',
    Request.read (Ex.session BaseResponse Ex.sock Ex.client
                    [Return (Ex.get_request [("Content-Type", "text/plain");
                                             ("content-type", "text/html")])])
    = (Return environ, self')
    /\ environ !! "CONTENT_TYPE" = Some (VStr "text/html")
    /\ environ !! "CONTENT_LENGTH" = Some (VStr "")
    /\ environ !! "HTTP_CONTENT_TYPE" = None.
Proof.
  destruct (read_content_headers
              (Ex.session BaseResponse Ex.sock Ex.client
                 [Return (Ex.get_request [("Content-Type", "text/plain");
                                          ("content-type", "text/html")])])
              (Ex.get_request [("Content-Type", "text/plain");
                               ("content-type", "text/html")]) []
              eq_refl ltac:(discriminate) eq_refl)
    as (environ & self' & Hread & Hct & Hcl & Hh & _).
  by exists environ, self'.
Defined.

(** X8: a header of the request is in the context under [HTTP_] and its
    name in upper case with dashes turned into underscores, unless that
    key is one of the two skipped; when several headers have the same
    key the last one is the one kept. *)
Theorem read_header_passthrough self req rest hs1 name v hs2 :
  Session.parser self = Return req :: rest ->
  Session.server_address self <> AddrNone ->
  fault (Session.socket self) = None ->
  ParsedRequest.headers req = hs1 ++ (name, v) :: hs2 ->
  Forall (fun h => Request.http_key (fst h) <> Request.http_key name) hs2 ->
  skipped_key (Request.http_key name) = false ->
  exists environ self',
    Request.read self = (Return environ, self')
    /\ environ !! Request.http_key name = Some (VStr v).
Proof.
  intros Hp Hsrv Hf Hhs Hlast Hskip.
  destruct (read_fixed self req rest Hp Hsrv (or_introl Hf))
    as (environ & r0 & r1 & rmore & s0 & s1 & smore & _ & _ & Hread & Henv & _).
  exists environ. eexists. split; [exact Hread|].
  rewrite Henv, Hhs, add_headers_app. cbn [Request.add_headers].
  unfold skipped_key in Hskip. rewrite Hskip.
  rewrite add_headers_lookup_ne by exact Hlast. apply lookup_insert_eq.
Qed.

Lemma read_header_passthrough_witness :
  exists environ self',
    Request.read (Ex.session BaseResponse Ex.sock Ex.client
                    [Return (Ex.get_request [("X-Tag", "one"); ("x_tag", "two");
                                             ("Host", "example.org")])])
    = (Return environ, self')
    /\ environ !! "HTTP_X_TAG" = Some (VStr "two").
Proof.
  apply (read_header_passthrough
           (Ex.session BaseResponse Ex.sock Ex.client
              [Return (Ex.get_request [("X-Tag", "one"); ("x_tag", "two");
                                       ("Host", "example.org")])])
           _ [] [("X-Tag", "one")] "x_tag" "two" [("Host", "example.org")]
           eq_refl ltac:(discriminate) eq_refl eq_refl).
  - repeat constructor. discriminate.
  - reflexivity.
Defined.

(** ** Request.read: script name and addresses *)

Lemma prefix_app (s tail : string) : String.prefix s (s +:+ tail) = true.
Proof.
  induction s as [|c s IH]; [by destruct tail|].
  rewrite append_cons. cbn [String.prefix].
  by destruct (ascii_dec c c).
Qed.

Lemma drop_app (s tail : string) : PyStr.drop (String.length s) (s +:+ tail) = tail.
Proof. induction s as [|c s IH]; [reflexivity|]. by rewrite append_cons. Qed.

Lemma after_first_prefix (s tail : string) :
  PyStr.after_first s (s +:+ tail) = Some tail.
Proof.
  assert (forall t, String.prefix s t = true ->
            PyStr.after_first s t = Some (PyStr.drop (String.length s) t)) as H.
  { intros t Ht. destruct t; cbn [PyStr.after_first]; by rewrite Ht. }
  rewrite H by apply prefix_app. by rewrite drop_app.
Qed.

(** X9: [SCRIPT_NAME] is the value of the last [script_name] header,
    the [SCRIPT_NAME] of the process environment when there is none;
    [PATH_INFO] is the unquoted request path when the script name is
    empty, and when the path starts with a non-empty script name it is
    the unquoted rest of the path. *)
Theorem read_path_info self req rest :
  Session.parser self = Return req :: rest ->
  Session.server_address self <> AddrNone ->
  fault (Session.socket self) = None ->
  exists environ self' path_info,
    Request.read self = (Return environ, self')
    /\ environ !! "SCRIPT_NAME"
       = Some (VStr (last_value "script_name" (ParsedRequest.headers req)
                       (Session.os_SCRIPT_NAME self)))
    /\ environ !! "PATH_INFO" = Some (VStr (unquote path_info))
    /\ (last_value "script_name" (ParsedRequest.headers req)
          (Session.os_SCRIPT_NAME self) = "" ->
        path_info = ParsedRequest.path req)
    /\ (forall tail,
          ParsedRequest.path req
          = last_value "script_name" (ParsedRequest.headers req)
              (Session.os_SCRIPT_NAME self) +:+ tail ->
          path_info = tail).
Proof.
  intros Hp Hsrv Hf.
  destruct (read_fixed self req rest Hp Hsrv (or_introl Hf))
    as (environ & r0 & r1 & rmore & s0 & s1 & smore & _ & _ & Hread & _ & Hfix).
  set (sn := last_value "script_name" (ParsedRequest.headers req)
               (Session.os_SCRIPT_NAME self)).
  exists environ. eexists. exists (path_info_of sn (ParsedRequest.path req)).
  split; [exact Hread|].
  split; [|split; [|split]].
  - rewrite Hfix by fixed_key. unfold context_of. simplify_map_eq.
    by rewrite scan_locals_script_name.
  - rewrite Hfix by fixed_key. unfold context_of. simplify_map_eq.
    by rewrite scan_locals_script_name.
  - intros E. unfold path_info_of. by rewrite E.
  - intros tail E. unfold path_info_of, PyStr.split1_last. rewrite E.
    destruct sn as [|c sn'] eqn:Esn; [reflexivity|]. cbn [PyStr.is_empty].
    by rewrite after_first_prefix.
Qed.

Lemma read_path_info_witness :
  exists environ self',
    Request.read
      (Request__init__ BaseResponse "gunicorn/0.6" "/app" Ex.sock Ex.client
         (AddrPair "0.0.0.0" 8000) false
         [Return (Ex.get_request [("Host", "example.org")])])
    = (Return environ, self')
    /\ environ !! "SCRIPT_NAME" = Some (VStr "/app")
    /\ environ !! "PATH_INFO" = Some (VStr (unquote "/api/users")).
Proof.
  destruct (read_path_info
              (Request__init__ BaseResponse "gunicorn/0.6" "/app" Ex.sock Ex.client
                 (AddrPair "0.0.0.0" 8000) false
                 [Return (Ex.get_request [("Host", "example.org")])])
              (Ex.get_request [("Host", "example.org")]) []
              eq_refl ltac:(discriminate) eq_refl)
    as (environ & self' & path_info & Hread & Hsn & Hpi & _ & Htail).
  exists environ, self'. split; [exact Hread|]. split; [exact Hsn|].
  by rewrite <- (Htail "/api/users" eq_refl).
Defined.

(** X10: without an [X-Forwarded-For] header, a client address that is
    [None] or the empty string gives [REMOTE_ADDR] 127.0.0.1 and an
    empty [REMOTE_PORT], and a client address that is a pair gives its
    host and the decimal form of its port. *)
Theorem read_client_address self req rest :
  Session.parser self = Return req :: rest ->
  Session.server_address self <> AddrNone ->
  fault (Session.socket self) = None ->
  has_header "x-forwarded-for" (ParsedRequest.headers req) = false ->
  exists environ self',
    Request.read self = (Return environ, self')
    /\ match Session.client_address self with
       | AddrPair host port =>
           environ !! "REMOTE_ADDR" = Some (VStr host)
           /\ environ !! "REMOTE_PORT" = Some (VStr (PyStr.of_Z port))
       | AddrNone | AddrStr "" =>
           environ !! "REMOTE_ADDR" = Some (VStr "127.0.0.1")
           /\ environ !! "REMOTE_PORT" = Some (VStr "")
       | AddrStr _ => True
       end.
Proof.
  intros Hp Hsrv Hf Hx.
  destruct (read_fixed self req rest Hp Hsrv (or_introl Hf))
    as (environ & r0 & r1 & rmore & s0 & s1 & smore & Hr & _ & Hread & _ & Hfix).
  exists environ. eexists. split; [exact Hread|].
  rewrite (forwarded_for_absent _ _ Hx) in Hr.
  assert (environ !! "REMOTE_ADDR" = Some (VObj r0)
          /\ environ !! "REMOTE_PORT" = Some (VStr (py_str r1))) as [Ha Hport].
  { split; (rewrite Hfix by fixed_key); unfold context_of; by simplify_map_eq. }
  destruct (Session.client_address self) as [[|c s]|host port|];
    try exact I; injection Hr as <- <- _; by rewrite Ha, Hport.
Qed.

Lemma read_client_address_witness :
  exists environ self',
    Request.read
      (Request__init__ BaseResponse "gunicorn/0.6" "" Ex.sock
         (AddrPair "192.168.1.5" 54321) (AddrPair "0.0.0.0" 8000) false
         [Return (Ex.get_request [])])
    = (Return environ, self')
    /\ environ !! "REMOTE_ADDR" = Some (VStr "192.168.1.5")
    /\ environ !! "REMOTE_PORT" = Some (VStr "54321").
Proof.
  apply (read_client_address
           (Request__init__ BaseResponse "gunicorn/0.6" "" Ex.sock
              (AddrPair "192.168.1.5" 54321) (AddrPair "0.0.0.0" 8000) false
              [Return (Ex.get_request [])])
           (Ex.get_request []) [] eq_refl ltac:(discriminate) eq_refl eq_refl).
Defined.

(** X11: [SERVER_NAME] and [SERVER_PORT] are the host and the decimal
    port of a server address that is a pair, and the first two items of
    the split at colons of one that is a string. *)
Theorem read_server_address self req rest :
  Session.parser self = Return req :: rest ->
  Session.server_address self <> AddrNone ->
  fault (Session.socket self) = None ->
  exists environ self',
    Request.read self = (Return environ, self')
    /\ match Session.server_address self with
       | AddrPair host port =>
           environ !! "SERVER_NAME" = Some (VStr host)
           /\ environ !! "SERVER_PORT" = Some (VStr (PyStr.of_Z port))
       | AddrStr s =>
           exists host port more,
             Request.split_colon s = PyStr host :: PyStr port :: more
             /\ environ !! "SERVER_NAME" = Some (VStr host)
             /\ environ !! "SERVER_PORT" = Some (VStr port)
       | AddrNone => False
       end.
Proof.
  intros Hp Hsrv Hf.
  destruct (read_fixed self req rest Hp Hsrv (or_introl Hf))
    as (environ & r0 & r1 & rmore & s0 & s1 & smore & _ & Hs & Hread & _ & Hfix).
  exists environ. eexists. split; [exact Hread|].
  assert (environ !! "SERVER_NAME" = Some (VObj s0)
          /\ environ !! "SERVER_PORT" = Some (VStr (py_str s1))) as [Hn Hport].
  { split; (rewrite Hfix by fixed_key); unfold context_of; by simplify_map_eq. }
  destruct (Session.server_address self) as [s|host port|]; [| |done].
  - destruct (split_colon_items s) as (h & p & m & E & _).
    cbn [Request.server_addr] in Hs. rewrite E in Hs. injection Hs as <- <- _.
    by exists h, p, (PyStr <$> m).
  - injection Hs as <- <- _. by rewrite Hn, Hport.
Qed.

Lemma read_server_address_witness :
  exists environ self',
    Request.read
      (Request__init__ BaseResponse "gunicorn/0.6" "" Ex.sock Ex.client
         (AddrPair "0.0.0.0" 8000) false [Return (Ex.get_request [])])
    = (Return environ, self')
    /\ environ !! "SERVER_NAME" = Some (VStr "0.0.0.0")
    /\ environ !! "SERVER_PORT" = Some (VStr "8000").
Proof.
  apply (read_server_address
           (Request__init__ BaseResponse "gunicorn/0.6" "" Ex.sock Ex.client
              (AddrPair "0.0.0.0" 8000) false [Return (Ex.get_request [])])
           (Ex.get_request []) [] eq_refl ltac:(discriminate) eq_refl).
Defined.

Lemma forwarded_for_string hs : forall s,
  forwarded_for hs (AddrStr s) = AddrStr (last_value "x-forwarded-for" hs s).
Proof.
  induction hs as [|h rest IH]; intros s; [reflexivity|].
  cbn [forwarded_for last_value fold_left].
  destruct (String.eqb (PyStr.lower (fst h)) "x-forwarded-for"); apply IH.
Qed.

Lemma forwarded_for_present hs : forall a d,
  has_header "x-forwarded-for" hs = true ->
  forwarded_for hs a = AddrStr (last_value "x-forwarded-for" hs d).
Proof.
  induction hs as [|h rest IH]; intros a d; [discriminate|].
  cbn [has_header existsb forwarded_for last_value fold_left].
  destruct (String.eqb (PyStr.lower (fst h)) "x-forwarded-for"); cbn [orb].
  - intros _. apply forwarded_for_string.
  - apply IH.
Qed.

(** X12: when the request has an [X-Forwarded-For] header, [REMOTE_ADDR]
    and [REMOTE_PORT] are the first two items of the split at colons of
    the value of the last such header, whatever the client address of
    the connection is. *)
Theorem read_forwarded_for_overrides_client self req rest :
  Session.parser self = Return req :: rest ->
  Session.server_address self <> AddrNone ->
  fault (Session.socket self) = None ->
  has_header "x-forwarded-for" (ParsedRequest.headers req) = true ->
  exists environ self' host port more,
    Request.read self = (Return environ, self')
    /\ Request.split_colon
         (last_value "x-forwarded-for" (ParsedRequest.headers req) "")
       = PyStr host :: PyStr port :: more
    /\ environ !! "REMOTE_ADDR" = Some (VStr host)
    /\ environ !! "REMOTE_PORT" = Some (VStr port).
Proof.
  intros Hp Hsrv Hf Hx.
  destruct (split_colon_items
              (last_value "x-forwarded-for" (ParsedRequest.headers req) ""))
    as (host & port & more & E & _).
  destruct (read_remote_addr self req rest _ host port (PyStr <$> more)
              Hp Hf Hsrv (forwarded_for_present _ _ "" Hx) E)
    as (environ & self' & Hread & Ha & Hport).
  by exists environ, self', host, port, (PyStr <$> more).
Qed.

Lemma read_forwarded_for_overrides_client_witness :
  exists environ self',
    Request.read
      (Request__init__ BaseResponse "gunicorn/0.6" "" Ex.sock Ex.client
         (AddrPair "0.0.0.0" 8000) false
         [Return (Ex.get_request [("X-Forwarded-For", "10.0.0.1");
                                  ("x-forwarded-for", "203.0.113.5:4711")])])
    = (Return environ, self')
    /\ environ !! "REMOTE_ADDR" = Some (VStr "203.0.113.5")
    /\ environ !! "REMOTE_PORT" = Some (VStr "4711").
Proof.
  destruct (read_forwarded_for_overrides_client
              (Request__init__ BaseResponse "gunicorn/0.6" "" Ex.sock Ex.client
                 (AddrPair "0.0.0.0" 8000) false
                 [Return (Ex.get_request [("X-Forwarded-For", "10.0.0.1");
                                          ("x-forwarded-for", "203.0.113.5:4711")])])
              (Ex.get_request [("X-Forwarded-For", "10.0.0.1");
                               ("x-forwarded-for", "203.0.113.5:4711")]) []
              eq_refl ltac:(discriminate) eq_refl eq_refl)
    as (environ & self' & host & port & more & Hread & Hsplit & Ha & Hport).
  injection Hsplit as <- <- _. by exists environ, self'.
Defined.

(** ** Response.__init__: what it accepts *)

Lemma init_header_accepted name value chunked :
  accepted (PyStr name, value) = true ->
  exists o, Response.init_header name value chunked = Return o.
Proof.
  unfold accepted, Response.init_header.
  destruct (util.is_hoppish name); cbn [andb]; [|eauto].
  destruct (String.eqb (PyStr.strip (PyStr.lower name)) "transfer-encoding");
    cbn [orb].
  - destruct value; try discriminate. intros _. simpl.
    destruct (String.eqb _ _); eauto.
  - destruct (String.eqb (PyStr.strip (PyStr.lower name)) "connection"); [|eauto].
    destruct value; try discriminate. intros _. simpl.
    destruct (negb _); eauto.
Qed.

Lemma init_header_rejected name value chunked :
  accepted (PyStr name, value) = false ->
  Response.init_header name value chunked = Raise (AttributeError value "lower").
Proof.
  unfold accepted, Response.init_header.
  destruct (util.is_hoppish name); cbn [andb]; [|discriminate].
  destruct (String.eqb (PyStr.strip (PyStr.lower name)) "transfer-encoding");
    cbn [orb].
  - by destruct value.
  - destruct (String.eqb (PyStr.strip (PyStr.lower name)) "connection");
      [|discriminate].
    by destruct value.
Qed.

Lemma init_headers_accepted hs : forall chunked acc,
  forallb accepted hs = true ->
  exists chunked' out, Response.init_headers hs chunked acc = Return (chunked', out).
Proof.
  induction hs as [|[name value] rest IH]; intros chunked acc H; [simpl; eauto|].
  cbn [forallb] in H. apply andb_true_iff in H as [Ha Hrest].
  destruct name as [name| | |? ?]; try discriminate Ha.
  cbn [Response.init_headers].
  destruct (init_header_accepted name value chunked Ha) as [[ch [h|]] ->];
    by apply IH.
Qed.

Lemma init_headers_first_rejected hs1 : forall name value hs2 chunked acc,
  forallb accepted hs1 = true ->
  accepted (name, value) = false ->
  Response.init_headers (hs1 ++ (name, value) :: hs2) chunked acc
  = Raise (match name with
           | PyStr _ => AttributeError value "lower"
           | _ => assert_failure NotAString name
           end).
Proof.
  induction hs1 as [|[n v] rest IH]; intros name value hs2 chunked acc H1 Hbad.
  - cbn [app Response.init_headers].
    destruct name as [name| | |? ?]; try reflexivity.
    by rewrite init_header_rejected.
  - cbn [forallb] in H1. apply andb_true_iff in H1 as [Ha Hrest].
    destruct n as [n| | |? ?]; try discriminate Ha.
    cbn [app Response.init_headers].
    destruct (init_header_accepted n v chunked Ha) as [[ch [h|]] ->];
      by apply IH.
Qed.

(** X13: for header lists made of byte strings, integers, [None] and
    tuples, the constructor of a response returns exactly when every
    name is a byte string and every value of a [Transfer-Encoding] or
    [Connection] header is a byte string. *)
Theorem init_returns_iff_accepted c req status hs :
  (exists r, Response.init c req status hs = Return r)
  <-> forallb accepted hs = true.
Proof.
  split.
  - intros [r Hr]. destruct (forallb accepted hs) eqn:E; [done|].
    assert (exists hs1 h hs2, hs = hs1 ++ h :: hs2
                              /\ forallb accepted hs1 = true
                              /\ accepted h = false)
      as (hs1 & [name value] & hs2 & -> & H1 & Hbad).
    { clear Hr. induction hs as [|h rest IH]; [discriminate|].
      cbn [forallb] in E. destruct (accepted h) eqn:Eh.
      - destruct (IH E) as (hs1 & h' & hs2 & -> & H1 & Hbad).
        exists (h :: hs1), h', hs2. cbn [forallb]. by rewrite Eh, H1.
      - by exists [], h, rest. }
    unfold Response.init in Hr.
    by rewrite (init_headers_first_rejected hs1 name value hs2 false [] H1 Hbad) in Hr.
  - intros H. unfold Response.init.
    destruct (init_headers_accepted hs false [] H) as (ch & out & ->). eauto.
Qed.

(** X14: the constructor raises at the first header it does not accept.
    When the name is not a string the error is that of the assertion on
    the name: an [AssertionError], or the [TypeError] of formatting its
    message when the name is a tuple of a length other than one. When
    the name is [Transfer-Encoding] or [Connection] and the value is not
    a string, it is the [AttributeError] of [value.lower()]. *)
Theorem init_raises_at_first_rejected c req status hs1 name value hs2 :
  forallb accepted hs1 = true ->
  accepted (name, value) = false ->
  Response.init c req status (hs1 ++ (name, value) :: hs2)
  = Raise (match name with
           | PyStr _ => AttributeError value "lower"
           | _ => assert_failure NotAString name
           end).
Proof.
  intros H1 Hbad. unfold Response.init.
  by rewrite (init_headers_first_rejected hs1 name value hs2 false [] H1 Hbad).
Qed.

Lemma init_raises_at_first_rejected_witness :
  Response.init BaseResponse (Ex.serving BaseResponse) "200 OK"
    [(PyStr "Content-Length", PyInt 12); (PyStr "Connection", PyNone);
     (PyInt 3, PyStr "x")]
  = Raise (AttributeError PyNone "lower")
  /\ Response.init BaseResponse (Ex.serving BaseResponse) "200 OK"
       [(PyStr "Content-Length", PyInt 12); (PyNone, PyStr "x");
        (PyStr "Connection", PyNone)]
     = Raise (AssertionError (NotAString PyNone))
  /\ Response.init BaseResponse (Ex.serving BaseResponse) "200 OK"
       [(PyTuple [PyStr "X-A"; PyStr "1"] "('X-A', '1')", PyStr "x")]
     = Raise (TypeError "not all arguments converted during string formatting")
  /\ Response.init BaseResponse (Ex.serving BaseResponse) "200 OK"
       [(PyTuple [PyInt 3] "(3,)", PyStr "x")]
     = Raise (AssertionError (NotAString (PyInt 3))).
Proof.
  split; [|split; [|split]].
  - apply (init_raises_at_first_rejected BaseResponse (Ex.serving BaseResponse)
             "200 OK" [(PyStr "Content-Length", PyInt 12)]
             (PyStr "Connection") PyNone [(PyInt 3, PyStr "x")] eq_refl eq_refl).
  - apply (init_raises_at_first_rejected BaseResponse (Ex.serving BaseResponse)
             "200 OK" [(PyStr "Content-Length", PyInt 12)]
             PyNone (PyStr "x") [(PyStr "Connection", PyNone)] eq_refl eq_refl).
  - apply (init_raises_at_first_rejected BaseResponse (Ex.serving BaseResponse)
             "200 OK" [] (PyTuple [PyStr "X-A"; PyStr "1"] "('X-A', '1')")
             (PyStr "x") [] eq_refl eq_refl).
  - apply (init_raises_at_first_rejected BaseResponse (Ex.serving BaseResponse)
             "200 OK" [] (PyTuple [PyInt 3] "(3,)") (PyStr "x") [] eq_refl eq_refl).
Defined.

(** X15: a header list without hop-by-hop names comes out of the
    constructor whole: every header, in the order given and with
    repeated names kept, its name trimmed and its value turned into a
    string and trimmed; the chunked flag is off and no header is sent. *)
Theorem init_keeps_end_to_end_headers c req status (hs : list (string * pyobj)) :
  Forall (fun h => util.is_hoppish (fst h) = false) hs ->
  Response.init c req status ((fun h => (PyStr (fst h), snd h)) <$> hs)
  = Return {| ResponseState.cls := c;
              ResponseState.version := Session.SERVER_VERSION req;
              ResponseState.status := status;
              ResponseState.chunked := false;
              ResponseState.headers := (fun h => trimmed (fst h) (snd h)) <$> hs;
              ResponseState.headers_sent := false |}.
Proof.
  intros Hall. unfold Response.init.
  assert (forall chunked acc,
            Response.init_headers ((fun h => (PyStr (fst h), snd h)) <$> hs) chunked acc
            = Return (chunked, acc ++ ((fun h => trimmed (fst h) (snd h)) <$> hs)))
    as ->; [|reflexivity].
  induction hs as [|[name value] rest IH]; intros chunked acc.
  - simpl. by rewrite app_nil_r.
  - apply Forall_cons in Hall as [Hn Hrest]. simpl in Hn.
    cbn [fmap list_fmap fst snd Response.init_headers].
    unfold Response.init_header. rewrite Hn.
    rewrite (IH Hrest). unfold trimmed. by rewrite <- app_assoc.
Qed.

Lemma init_keeps_end_to_end_headers_witness :
  Response.init BaseResponse (Ex.serving BaseResponse) "200 OK"
    [(PyStr " Set-Cookie", PyStr "a=1 "); (PyStr "Content-Length", PyInt 12);
     (PyStr "Set-Cookie", PyStr "b=2")]
  = Return {| ResponseState.cls := BaseResponse;
              ResponseState.version := "gunicorn/0.6";
              ResponseState.status := "200 OK";
              ResponseState.chunked := false;
              ResponseState.headers :=
                [("Set-Cookie", "a=1"); ("Content-Length", "12");
                 ("Set-Cookie", "b=2")];
              ResponseState.headers_sent := false |}.
Proof.
  apply (init_keeps_end_to_end_headers BaseResponse (Ex.serving BaseResponse) "200 OK"
           [(" Set-Cookie", PyStr "a=1 "); ("Content-Length", PyInt 12);
            ("Set-Cookie", PyStr "b=2")]).
  repeat constructor.
Defined.

(** X16: the chunked flag of a response is set exactly when the header
    list has a header whose name in lower case is [transfer-encoding]
    and whose value, in lower case and trimmed, is [chunked]; no other
    header sets it. *)
Theorem init_chunked_iff c req status hs r :
  Response.init c req status hs = Return r ->
  ResponseState.chunked r = true
  <-> exists name value,
        (PyStr name, PyStr value) ∈ hs
        /\ PyStr.lower name = "transfer-encoding"
        /\ PyStr.strip (PyStr.lower value) = "chunked".
Proof.
  intros Hinit. apply init_spec in Hinit as (-> & _). split.
  - intros H. apply existsb_exists in H as ([name value] & Hin & Hs).
    apply list_elem_of_In in Hin.
    destruct name as [name| | |? ?]; try discriminate Hs.
    unfold sets_chunked, value_is in Hs.
    apply andb_true_iff in Hs as [Hs Hv]. apply andb_true_iff in Hs as [Hhop Hte].
    rewrite (hoppish_strip_lower name Hhop) in Hte. apply String.eqb_eq in Hte.
    destruct value as [value| | |? ?]; try discriminate Hv. simpl in Hv.
    apply String.eqb_eq in Hv. by exists name, value.
  - intros (name & value & Hin & Hname & Hvalue).
    apply existsb_exists. exists (PyStr name, PyStr value).
    split; [by apply list_elem_of_In|].
    pose proof (lower_transfer_encoding_hoppish name Hname) as Hhop.
    unfold sets_chunked, value_is. simpl.
    by rewrite Hhop, (hoppish_strip_lower name Hhop), Hname, Hvalue.
Qed.

Lemma init_chunked_iff_witness :
  forallb (fun h => negb (sets_chunked h)) Ex.mixed_headers = true
  /\ exists r,
       Response.init BaseResponse (Ex.serving BaseResponse) "200 OK" Ex.mixed_headers
       = Return r
       /\ ResponseState.chunked r <> true.
Proof.
  split; [reflexivity|].
  destruct (Response.init BaseResponse (Ex.serving BaseResponse) "200 OK"
              Ex.mixed_headers) as [r|] eqn:E; [|discriminate E].
  exists r. split; [reflexivity|].
  intros Hch.
  apply (init_chunked_iff _ _ _ _ _ E) in Hch as (name & value & Hin & Hn & Hv).
  unfold Ex.mixed_headers in Hin.
  repeat (apply elem_of_cons in Hin as [Hin | Hin];
          [try discriminate Hin; injection Hin as -> ->;
           vm_compute in Hn, Hv; first [discriminate Hn | discriminate Hv] |]).
  by apply elem_of_nil in Hin.
Defined.

(** ** The response writer: failures *)

Lemma on_socket_send_broken data r self errno :
  fault (Session.socket self) = Some errno ->
  Response.on_socket (send data) (r, self) = (Raise (SocketError errno), (r, self)).
Proof.
  intros Hf. unfold Response.on_socket, Session.on_socket, zoom, send. simpl.
  rewrite Hf. by rewrite set_socket_same.
Qed.

Lemma send_headers_broken date r self errno tosend :
  ResponseState.headers_sent r = false ->
  fault (Session.socket self) = Some errno ->
  fst (Response.self_default_headers date (r, self)) = Return tosend ->
  Response.send_headers date (r, self) = (Raise (SocketError errno), (r, self)).
Proof.
  intros Hs Hf Hd. unfold Response.send_headers, bind, get. simpl. rewrite Hs.
  pose proof (self_default_headers_pure date (r, self)) as Hp.
  destruct (Response.self_default_headers date (r, self)) as [o st'].
  simpl in Hd, Hp. subst o st'.
  unfold util.write. by rewrite (on_socket_send_broken _ _ _ errno).
Qed.

(** X17: on a broken socket every call on a response whose headers are
    not yet sent raises the socket's error and changes nothing: the
    headers-sent flag stays off, because [send_headers] sets it only
    after the block is written. *)
Theorem calls_on_broken_socket date c r self errno tosend :
  ResponseState.headers_sent r = false ->
  fault (Session.socket self) = Some errno ->
  fst (Response.self_default_headers date (r, self)) = Return tosend ->
  run_call date c (r, self) = (Raise (SocketError errno), (r, self)).
Proof.
  intros Hs Hf Hd.
  pose proof (send_headers_broken date r self errno tosend Hs Hf Hd) as Hsend.
  destruct c as [|arg|]; simpl.
  - exact Hsend.
  - unfold Response.write, bind. by rewrite Hsend.
  - unfold Response.close, bind, get. simpl. rewrite Hs. simpl. by rewrite Hsend.
Qed.

Lemma calls_on_broken_socket_witness :
  Response.close Ex.date
    (Ex.response BaseResponse true false,
     Ex.session BaseResponse (Ex.broken 32) Ex.client [])
  = (Raise (SocketError 32),
     (Ex.response BaseResponse true false,
      Ex.session BaseResponse (Ex.broken 32) Ex.client [])).
Proof.
  apply (calls_on_broken_socket Ex.date Close (Ex.response BaseResponse true false)
           (Ex.session BaseResponse (Ex.broken 32) Ex.client []) 32 _
           eq_refl eq_refl eq_refl).
Defined.

(** X18: a keep-alive response whose session has no parsed request, as
    after [Request.__init__] and before any [read], cannot send its
    headers: every call raises the [AttributeError] of
    [None.should_close] and writes nothing. *)
Theorem keep_alive_response_needs_request date c r self :
  ResponseState.cls r = KeepAliveResponseClass ->
  ResponseState.headers_sent r = false ->
  Session.req self = None ->
  run_call date c (r, self)
  = (Raise (AttributeError PyNone "should_close"), (r, self)).
Proof.
  intros Hc Hs Hreq.
  assert (Response.send_headers date (r, self)
          = (Raise (AttributeError PyNone "should_close"), (r, self))) as Hsend.
  { unfold Response.send_headers, Response.self_default_headers,
      KeepAliveResponse.default_headers, bind, get, raise. simpl.
    rewrite Hs. simpl. rewrite Hc. simpl. by rewrite Hreq. }
  destruct c as [|arg|]; simpl.
  - exact Hsend.
  - unfold Response.write, bind. by rewrite Hsend.
  - unfold Response.close, bind, get. simpl. rewrite Hs. simpl. by rewrite Hsend.
Qed.

Lemma keep_alive_response_needs_request_witness :
  Response.write Ex.date (PyStr "hello")
    (Ex.response KeepAliveResponseClass false false,
     Request__init__ KeepAliveResponseClass "gunicorn/0.6" "" Ex.sock Ex.client
       (AddrPair "0.0.0.0" 8000) false [])
  = (Raise (AttributeError PyNone "should_close"),
     (Ex.response KeepAliveResponseClass false false,
      Request__init__ KeepAliveResponseClass "gunicorn/0.6" "" Ex.sock Ex.client
        (AddrPair "0.0.0.0" 8000) false [])).
Proof.
  apply (keep_alive_response_needs_request Ex.date (Write (PyStr "hello"))
           (Ex.response KeepAliveResponseClass false false)
           (Request__init__ KeepAliveResponseClass "gunicorn/0.6" "" Ex.sock Ex.client
              (AddrPair "0.0.0.0" 8000) false [])
           eq_refl eq_refl eq_refl).
Defined.

(** ** Request.start_response: further properties *)

(** X19: [start_response] sends nothing and touches nothing of the
    session but [self.response]: the socket, the parsed request and the
    parser are after the call what they were before, whatever the
    arguments and whether it returns or raises. *)
Theorem start_response_keeps_session status hs exc self :
  Session.socket (snd (Request.start_response status hs exc self))
  = Session.socket self
  /\ Session.req (snd (Request.start_response status hs exc self)) = Session.req self
  /\ Session.parser (snd (Request.start_response status hs exc self))
     = Session.parser self
  /\ (forall e, fst (Request.start_response status hs exc self) = Raise e ->
        snd (Request.start_response status hs exc self) = self).
Proof.
  unfold Request.start_response, bind, get, raise, ret, lift, put. simpl.
  destruct exc as [e|]; destruct (Session.response self) as [r|];
    try destruct (ResponseState.headers_sent r);
    simpl; try (repeat split; done);
    destruct (Response.init _ _ _ _); simpl; repeat split; done.
Qed.

Lemma init_accepted c req status hs :
  forallb accepted hs = true ->
  Response.init c req status hs
  = Return {| ResponseState.cls := c;
              ResponseState.version := Session.SERVER_VERSION req;
              ResponseState.status := status;
              ResponseState.chunked := existsb sets_chunked hs;
              ResponseState.headers := omap retained hs;
              ResponseState.headers_sent := false |}.
Proof.
  intros Hacc. unfold Response.init.
  destruct (init_headers_accepted hs false [] Hacc) as (ch & out & E).
  rewrite E. by apply init_headers_spec in E as [-> ->].
Qed.

(** X20: on a session without a response, [start_response] gives the
    same result with and without error information: it runs the
    constructor, and for a header list the constructor accepts it
    returns and installs a response of the session's class, with the
    session's server version, the given status, the chunked flag and
    headers of the constructor, and the headers not sent. *)
Theorem first_start_response status hs exc self :
  Session.response self = None ->
  forallb accepted hs = true ->
  exists r,
    Request.start_response status hs exc self
    = (Return tt, Session.set_response (Some r) self)
    /\ r = {| ResponseState.cls := Session.RESPONSE_CLASS self;
              ResponseState.version := Session.SERVER_VERSION self;
              ResponseState.status := status;
              ResponseState.chunked := existsb sets_chunked hs;
              ResponseState.headers := omap retained hs;
              ResponseState.headers_sent := false |}.
Proof.
  intros Hr Hacc. eexists. split; [|reflexivity].
  unfold Request.start_response, bind, get, raise, ret, lift, put. simpl.
  rewrite Hr, (init_accepted _ _ _ _ Hacc). by destruct exc.
Qed.

Lemma first_start_response_witness :
  Request.start_response "200 OK"
    [(PyStr "Content-Type", PyStr "text/plain"); (PyStr "Keep-Alive", PyInt 5)]
    (Some Ex.err) (Ex.serving KeepAliveResponseClass)
  = (Return tt,
     Session.set_response
       (Some {| ResponseState.cls := KeepAliveResponseClass;
                ResponseState.version := "gunicorn/0.6";
                ResponseState.status := "200 OK";
                ResponseState.chunked := false;
                ResponseState.headers := [("Content-Type", "text/plain")];
                ResponseState.headers_sent := false |})
       (Ex.serving KeepAliveResponseClass)).
Proof.
  destruct (first_start_response "200 OK"
              [(PyStr "Content-Type", PyStr "text/plain"); (PyStr "Keep-Alive", PyInt 5)]
              (Some Ex.err) (Ex.serving KeepAliveResponseClass) eq_refl eq_refl)
    as (r & Hstart & ->).
  exact Hstart.
Defined.

(** X21: once the handler has called the [write] it got from
    [start_response], with any argument, on a healthy socket, the
    headers are out: the header block is on the wire, followed by the
    body output of the call, and a later [start_response] with error
    information raises that error again and leaves the session alone. *)
Theorem error_after_write_is_reraised date arg status hs e self r tosend :
  Session.response self = Some r ->
  ResponseState.headers_sent r = false ->
  fault (Session.socket self) = None ->
  fst (Response.self_default_headers date (r, self)) = Return tosend ->
  wire (Session.socket (snd (Request.call_write date arg self)))
  = wire (Session.socket self)
    ++ Response.header_block tosend r
       :: body_output (ResponseState.chunked r) (Write arg)
  /\ Request.start_response status hs (Some e)
       (snd (Request.call_write date arg self))
     = (Raise (Reraised e), snd (Request.call_write date arg self)).
Proof.
  intros Hr Hs Hf Hd.
  pose proof (run_call_fresh date (Write arg) r self tosend Hs Hf Hd) as Hw.
  cbn [run_call] in Hw.
  unfold Request.call_write, Request.on_response. rewrite Hr.
  destruct (Response.write date arg (r, self)) as [o [r' self'']].
  simpl in Hw. injection Hw as -> ->. simpl. split; [reflexivity|].
  unfold Request.start_response, bind, get, raise. reflexivity.
Qed.

Lemma error_after_write_is_reraised_witness :
  fst (Request.start_response "500 Internal Server Error" [] (Some Ex.err)
         (snd (Request.call_write Ex.date (PyInt 3)
                 (Session.set_response (Some (Ex.response BaseResponse false false))
                    (Ex.serving BaseResponse)))))
  = Raise (Reraised Ex.err).
Proof.
  rewrite (proj2 (error_after_write_is_reraised Ex.date (PyInt 3)
                    "500 Internal Server Error" [] Ex.err
                    (Session.set_response (Some (Ex.response BaseResponse false false))
                       (Ex.serving BaseResponse))
                    (Ex.response BaseResponse false false) _
                    eq_refl eq_refl eq_refl eq_refl)).
  reflexivity.
Defined.

(** ** One cycle of a keep-alive connection *)

Lemma after_sends_healthy data self :
  fault (Session.socket self) = None ->
  fault (Session.socket (after_sends data self)) = None.
Proof. by destruct data. Qed.

Lemma write_fresh_returns date data r self tosend :
  ResponseState.headers_sent r = false ->
  fault (Session.socket self) = None ->
  fst (Response.self_default_headers date (r, self)) = Return tosend ->
  Response.write date (PyStr data) (r, self)
  = (Return tt,
     (ResponseState.set_headers_sent true r,
      sent [Response.header_block tosend r;
            if ResponseState.chunked r then chunk_frame data else data] self)).
Proof.
  intros Hs Hf Hd. unfold Response.write, bind.
  rewrite (send_headers_fresh date r self tosend Hs Hf Hd). simpl.
  unfold util.write, util.write_chunk, chunk_frame.
  destruct (ResponseState.chunked r); rewrite on_socket_send by done;
    by rewrite sent_sent.
Qed.

(** X22: one cycle on a keep-alive session that has no response yet, on
    a healthy socket: the keep-alive [read] returns the context of the
    next request, [start_response] with an accepted header list
    installs a response, and the first [write] of a string returns
    after sending, behind the interim responses of [read], the header
    block and then the body; the block's [Connection] line is [close]
    or [keep-alive] according to [should_close] of the request just
    read. *)
Theorem keep_alive_cycle self req rest status hs date data :
  Session.RESPONSE_CLASS self = KeepAliveResponseClass ->
  Session.response self = None ->
  Session.parser self = Return req :: rest ->
  Session.server_address self <> AddrNone ->
  fault (Session.socket self) = None ->
  forallb accepted hs = true ->
  exists environ self1 self2 self3 r,
    KeepAliveRequest.read self = (Return (Some environ), self1)
    /\ Request.start_response status hs None self1 = (Return tt, self2)
    /\ Session.response self2 = Some r
    /\ ResponseState.headers r = omap retained hs
    /\ ResponseState.chunked r = existsb sets_chunked hs
    /\ Request.call_write date (PyStr data) self2 = (Return tt, self3)
    /\ wire (Session.socket self3)
       = wire (Session.socket self)
         ++ continues (ParsedRequest.headers req)
         ++ [Response.header_block
               ["HTTP/1.1 " +:+ status +:+ CRLF;
                "Server: " +:+ Session.SERVER_VERSION self +:+ CRLF;
                "Date: " +:+ date +:+ CRLF;
                "Connection: "
                +:+ (if ParsedRequest.should_close req then "close" else "keep-alive")
                +:+ CRLF] r;
             if ResponseState.chunked r then chunk_frame data else data].
Proof.
  intros Hcls Hresp Hp Hsrv Hf Hacc.
  destruct (read_fixed self req rest Hp Hsrv (or_introl Hf))
    as (environ & r0 & r1 & rmore & s0 & s1 & smore & _ & _ & Hread & _).
  set (self1 := after_sends (continues (ParsedRequest.headers req))
                  (Session.set_req (Some req) (Session.set_parser rest self))) in *.
  destruct (after_sends_fields (continues (ParsedRequest.headers req))
              (Session.set_req (Some req) (Session.set_parser rest self)))
    as (Hreq1 & _ & Hresp1 & Hcls1 & Hver1).
  fold self1 in Hreq1, Hresp1, Hcls1, Hver1. simpl in Hreq1, Hresp1, Hcls1, Hver1.
  assert (fault (Session.socket self1) = None) as Hf1
    by (by apply after_sends_healthy).
  set (r := {| ResponseState.cls := KeepAliveResponseClass;
               ResponseState.version := Session.SERVER_VERSION self;
               ResponseState.status := status;
               ResponseState.chunked := existsb sets_chunked hs;
               ResponseState.headers := omap retained hs;
               ResponseState.headers_sent := false |}).
  set (self2 := Session.set_response (Some r) self1).
  set (tosend := ["HTTP/1.1 " +:+ status +:+ CRLF;
                  "Server: " +:+ Session.SERVER_VERSION self +:+ CRLF;
                  "Date: " +:+ date +:+ CRLF;
                  "Connection: "
                  +:+ (if ParsedRequest.should_close req then "close" else "keep-alive")
                  +:+ CRLF]).
  exists environ, self1, self2.
  exists (Session.set_response (Some (ResponseState.set_headers_sent true r))
            (sent [Response.header_block tosend r;
                   if ResponseState.chunked r then chunk_frame data else data] self2)).
  exists r.
  split; [by apply keep_alive_read_returns|].
  split.
  { unfold Request.start_response, bind, get, raise, ret, lift, put. simpl.
    rewrite Hresp1, Hresp, (init_accepted _ _ _ _ Hacc), Hcls1, Hcls, Hver1.
    reflexivity. }
  split; [reflexivity|]. split; [reflexivity|]. split; [reflexivity|].
  split.
  { unfold Request.call_write, Request.on_response.
    change (Session.response self2) with (Some r). cbv beta iota.
    rewrite (write_fresh_returns date data r self2 tosend eq_refl Hf1).
    - reflexivity.
    - unfold Response.self_default_headers, KeepAliveResponse.default_headers,
        bind, get, ret. simpl. change (Session.req self1) with (Session.req self1).
      by rewrite Hreq1. }
  simpl. unfold self1. rewrite after_sends_wire. simpl. by rewrite <- app_assoc.
Qed.

Lemma keep_alive_cycle_witness :
  exists environ self1 self2 self3,
    KeepAliveRequest.read
      (Request__init__ KeepAliveResponseClass "gunicorn/0.6" "" Ex.sock Ex.client
         (AddrPair "0.0.0.0" 8000) false [Return Ex.closing_request])
    = (Return (Some environ), self1)
    /\ Request.start_response "200 OK" [(PyStr "Content-Type", PyStr "text/plain")]
         None self1 = (Return tt, self2)
    /\ Request.call_write Ex.date (PyStr "hello") self2 = (Return tt, self3)
    /\ wire (Session.socket self3)
       = [Response.header_block
            ["HTTP/1.1 200 OK" +:+ CRLF; "Server: gunicorn/0.6" +:+ CRLF;
             "Date: " +:+ Ex.date +:+ CRLF; "Connection: close" +:+ CRLF]
            (Ex.response KeepAliveResponseClass false false);
          "hello"].
Proof.
  destruct (keep_alive_cycle
              (Request__init__ KeepAliveResponseClass "gunicorn/0.6" "" Ex.sock
                 Ex.client (AddrPair "0.0.0.0" 8000) false [Return Ex.closing_request])
              Ex.closing_request [] "200 OK"
              [(PyStr "Content-Type", PyStr "text/plain")] Ex.date "hello"
              eq_refl eq_refl eq_refl ltac:(discriminate) eq_refl eq_refl)
    as (environ & self1 & self2 & self3 & r & Hread & Hstart & Hr & Hhs & Hch
        & Hwrite & Hwire).
  exists environ, self1, self2, self3.
  split; [exact Hread|]. split; [exact Hstart|]. split; [exact Hwrite|].
  rewrite Hwire. unfold Response.header_block. by rewrite Hhs, Hch.
Defined.

Lemma init_returns_iff_accepted_witness :
  (exists r, Response.init BaseResponse (Ex.serving BaseResponse) "200 OK"
               Ex.mixed_headers = Return r)
  /\ ~ (exists r, Response.init BaseResponse (Ex.serving BaseResponse) "200 OK"
                    [(PyStr "Connection", PyInt 1)] = Return r).
Proof.
  split.
  - apply (proj2 (init_returns_iff_accepted BaseResponse (Ex.serving BaseResponse)
                    "200 OK" Ex.mixed_headers)).
    reflexivity.
  - intros H.
    apply (proj1 (init_returns_iff_accepted BaseResponse (Ex.serving BaseResponse)
                    "200 OK" [(PyStr "Connection", PyInt 1)])) in H.
    discriminate H.
Defined.

Lemma start_response_keeps_session_witness :
  snd (Request.start_response "200 OK" [(PyInt 1, PyStr "x")] None
         (Ex.serving BaseResponse))
  = Ex.serving BaseResponse.
Proof.
  apply (proj2 (proj2 (proj2 (start_response_keeps_session "200 OK"
           [(PyInt 1, PyStr "x")] None (Ex.serving BaseResponse))))
           (AssertionError (NotAString (PyInt 1)))).
  reflexivity.
Defined.
